(** * vlaunch: the application-bundle launcher of src/src/main.c

    A shallow embedding of the launcher in Rocq.  The C functions are
    translated one by one (same names, same order of calls); the operating
    system is a record of oracles [kernel]; the process keeps its
    environment and [errno] in an explicit state; every system call, log
    line and [printf] is recorded in a trace of events.  Replacing the
    process image is an outcome of its own: the computation stops there. *)

From Stdlib Require Import ZArith Lia.
From stdpp Require Import base option list strings gmap pretty.

Local Open Scope Z_scope.

(** ** Configuration macros (main.c, lines 57-76) *)

(** [PATH_MAX] comes from <limits.h>; the launcher is written for Linux
    (see [print_usage]), where it is 4096. *)
Definition PATH_MAX : Z := 4096.

Definition APP_NAME : string := "Application Launcher".
Definition APP_VERSION : string := "1.0.0".
Definition MAX_PATH_LENGTH : Z := PATH_MAX.
Definition MAX_ENV_LENGTH : Z := 4096.

Definition EXEC_PATH : string := "/exec/base".
Definition LIB_PATH : string := "/library".
Definition RES_PATH : string := "/resources".
Definition METADATA_PATH : string := "/info.yaml".
Definition ICON_PATH : string := "/icon.png".

Definition EXIT_SUCCESS : Z := 0.
Definition EXIT_INVALID_ARGS : Z := 1.
Definition EXIT_BUNDLE_ERROR : Z := 2.
Definition EXIT_EXEC_ERROR : Z := 3.
Definition EXIT_SYSTEM_ERROR : Z := 4.

Inductive log_level_t := LOG_INFO | LOG_WARNING | LOG_ERROR | LOG_DEBUG.

(** ** The C library and the kernel *)

(** C strings are byte strings; [strlen] is their length as a [size_t].
    The only sum of lengths the launcher forms adds two strings that live in
    one address space and the constant 2, so it cannot wrap and is taken in
    [Z]. *)
Definition strlen (s : string) : Z := Z.of_nat (String.length s).

(** [snprintf (buf, size, fmt, ...)] stores at most [size - 1] bytes of the
    formatted text; the launcher never looks at its return value.  The
    argument [s] is the formatted text. *)
Definition snprintf (size : Z) (s : string) : string :=
  String.substring 0 (Z.to_nat (size - 1)) s.

(** File-type bits of [st_mode] (<sys/stat.h>). *)
Definition S_IFMT : Z := 61440.   (* 0170000 *)
Definition S_IFDIR : Z := 16384.  (* 0040000 *)
Definition S_IFREG : Z := 32768.  (* 0100000 *)
Definition S_IFLNK : Z := 40960.  (* 0120000 *)

Definition S_ISDIR (m : Z) : bool := Z.land m S_IFMT =? S_IFDIR.
Definition S_ISREG (m : Z) : bool := Z.land m S_IFMT =? S_IFREG.
Definition S_ISLNK (m : Z) : bool := Z.land m S_IFMT =? S_IFLNK.

Definition X_OK : Z := 1.

Definition ENOENT : Z := 2.
Definition ENAMETOOLONG : Z := 36.

Inductive sysres (A : Type) := Ok (a : A) | Err (e : Z).
Arguments Ok {A} a.
Arguments Err {A} e.

(** What the launcher cannot decide by itself.
    - [k_inode path]: the [st_mode] of the file the path name resolves to
      (stat(2) follows symbolic links), or the error of the resolution;
    - [k_access path mode]: the answer of access(2), which the kernel gives
      for the real user and group of the process;
    - [k_setenv name value]: [Some e] when setenv(3) fails with [errno = e];
    - [k_execv path argv]: [Some e] when execv(3) fails with [errno = e],
      [None] when the image is replaced;
    - [k_cwd]: the answer of getcwd(3), [None] for a null pointer;
    - [k_strerror]: the text of an error number.
    The file system does not change while the launcher runs. *)
Record kernel := {
  k_inode : string → sysres Z;
  k_access : string → Z → sysres unit;
  k_setenv : string → string → option Z;
  k_execv : string → list string → option Z;
  k_cwd : option string;
  k_strerror : Z → string
}.

(** Path names handed to the kernel: the empty name does not resolve, and a
    name of [PATH_MAX] bytes or more (the terminating byte not counted) is
    refused before any lookup. *)
Definition sys_path {A} (path : string) (lookup : sysres A) : sysres A :=
  if strlen path =? 0 then Err ENOENT
  else if PATH_MAX <=? strlen path then Err ENAMETOOLONG
  else lookup.

Definition sys_stat (k : kernel) (path : string) : sysres Z :=
  sys_path path (k_inode k path).

Definition sys_access (k : kernel) (path : string) (mode : Z) : sysres unit :=
  sys_path path (k_access k path mode).

(** ** Process state, events and outcomes *)

Record process := {
  environ : gmap string string;
  errno : Z
}.

Definition set_errno (e : Z) (p : process) : process :=
  {| environ := environ p; errno := e |}.

Definition set_environ (env : gmap string string) (p : process) : process :=
  {| environ := env; errno := errno p |}.

Inductive event :=
  | EvStat (path : string)
  | EvAccess (path : string) (mode : Z)
  | EvGetenv (name : string)
  | EvSetenv (name value : string) (overwrite : Z)
  | EvGetcwd
  | EvExecv (path : string) (argv : list string)
  | EvLog (level : log_level_t) (message : string)
  | EvPrintf (text : string).

(** The program that runs after a successful execv: its path, its argument
    vector and the environment it starts with. *)
Record image := {
  img_path : string;
  img_argv : list string;
  img_environ : gmap string string
}.

Inductive outcome (A : Type) :=
  | Returns (a : A) (p : process)
  | Replaced (img : image).
Arguments Returns {A} a p.
Arguments Replaced {A} img.

(** A computation of the launcher: from the process state to the events it
    produces, in order, and its outcome. *)
Definition M (A : Type) : Type := process → list event * outcome A.

Global Instance M_ret : MRet M := λ A a p, ([], Returns a p).

Global Instance M_bind : MBind M := λ A B (f : A → M B) (m : M A) p,
  match m p with
  | (evs, Returns a p') =>
      match f a p' with
      | (evs', o) => (evs ++ evs', o)
      end
  | (evs, Replaced img) => (evs, Replaced img)
  end.

Definition emit (e : event) : M unit := λ p, ([e], Returns () p).

(** ** Library calls, as the launcher sees them *)

Section Launcher.
Context (k : kernel).

(** stat(2): [Some st_mode] for a return value of 0, [None] otherwise. *)
Definition stat (path : string) : M (option Z) := λ p,
  match sys_stat k path with
  | Ok mode => ([EvStat path], Returns (Some mode) p)
  | Err e => ([EvStat path], Returns None (set_errno e p))
  end.

(** access(2): 0 or -1. *)
Definition access (path : string) (mode : Z) : M Z := λ p,
  match sys_access k path mode with
  | Ok _ => ([EvAccess path mode], Returns 0 p)
  | Err e => ([EvAccess path mode], Returns (-1) (set_errno e p))
  end.

(** getenv(3): [None] for a null pointer. *)
Definition getenv (name : string) : M (option string) := λ p,
  ([EvGetenv name], Returns (environ p !! name) p).

(** setenv(3): 0 or -1; with [overwrite = 0] an existing variable is kept. *)
Definition setenv (name value : string) (overwrite : Z) : M Z := λ p,
  match k_setenv k name value with
  | Some e => ([EvSetenv name value overwrite], Returns (-1) (set_errno e p))
  | None =>
      let env :=
        match environ p !! name with
        | Some old => if overwrite =? 0 then environ p else <[name := value]> (environ p)
        | None => <[name := value]> (environ p)
        end in
      ([EvSetenv name value overwrite], Returns 0 (set_environ env p))
  end.

(** getcwd(NULL, 0). *)
Definition getcwd : M (option string) := λ p,
  ([EvGetcwd], Returns (k_cwd k) p).

(** execv(3): returns only when it fails, and then -1.  The new image starts
    with the environment of the process at that moment. *)
Definition execv (path : string) (argv : list string) : M Z := λ p,
  match k_execv k path argv with
  | None =>
      ([EvExecv path argv],
       Replaced {| img_path := path; img_argv := argv; img_environ := environ p |})
  | Some e => ([EvExecv path argv], Returns (-1) (set_errno e p))
  end.

(** [strerror(errno)]. *)
Definition strerror_errno : M string := λ p,
  ([], Returns (k_strerror k (errno p)) p).

(** What printf("%s") shows for a string that may be a null pointer (glibc). *)
Definition show_string (s : option string) : string := default "(null)" s.

(** ** log_message (main.c, lines 92-134)

    The event keeps the level and the formatted message; [log_stream] and
    [log_line] say where and how the line is written, for the time stamp
    that strftime produced.  What time, localtime, strftime and the three
    fprintf calls may do to [errno] is not modelled. *)

Definition level_str (level : log_level_t) : string :=
  match level with
  | LOG_INFO => "INFO"
  | LOG_WARNING => "WARN"
  | LOG_ERROR => "ERROR"
  | LOG_DEBUG => "DEBUG"
  end.

Definition level_icon (level : log_level_t) : string :=
  match level with
  | LOG_INFO => "ℹ️"
  | LOG_WARNING => "⚠️"
  | LOG_ERROR => "❌"
  | LOG_DEBUG => "🔍"
  end.

Inductive stream := stdout | stderr.

Definition log_stream (level : log_level_t) : stream :=
  match level with LOG_ERROR => stderr | _ => stdout end.

Definition newline : string := String (Ascii.ascii_of_nat 10) "".

Definition log_line (timestamp : string) (level : log_level_t) (message : string) : string :=
  "[" +:+ timestamp +:+ "] " +:+ level_icon level +:+ " " +:+ level_str level +:+ ": "
  +:+ message +:+ newline.

Definition log_message (level : log_level_t) (message : string) : M unit :=
  emit (EvLog level message).

(** ** file_exists and directory_exists (main.c, lines 141-170) *)

Definition file_exists (path : string) : M bool :=
  if strlen path =? 0 then mret false
  else
    st ← stat path;
    match st with
    | None => mret false
    | Some st_mode => mret (S_ISREG st_mode || S_ISLNK st_mode)
    end.

Definition directory_exists (path : string) : M bool :=
  if strlen path =? 0 then mret false
  else
    st ← stat path;
    match st with
    | None => mret false
    | Some st_mode => mret (S_ISDIR st_mode)
    end.

(** ** validate_bundle (main.c, lines 177-200) *)

Definition validate_bundle (bundle_path : string) : M Z :=
  found ← directory_exists bundle_path;
  if negb found then
    log_message LOG_ERROR ("Bundle directory not found: " +:+ bundle_path);;
    mret EXIT_BUNDLE_ERROR
  else
    let full_path := snprintf MAX_PATH_LENGTH (bundle_path +:+ EXEC_PATH) in
    found ← file_exists full_path;
    if negb found then
      log_message LOG_ERROR ("Required executable not found: " +:+ full_path);;
      mret EXIT_BUNDLE_ERROR
    else
      r ← access full_path X_OK;
      if negb (r =? 0) then
        log_message LOG_ERROR ("Executable lacks execute permissions: " +:+ full_path);;
        mret EXIT_BUNDLE_ERROR
      else
        log_message LOG_INFO ("Bundle validation successful: " +:+ bundle_path);;
        mret EXIT_SUCCESS.

(** ** configure_library_path (main.c, lines 207-241) *)

(** Lines 232-240: what follows once [new_ld_path] is filled. *)
Definition set_ld_library_path (lib_full_path new_ld_path : string) : M Z :=
  r ← setenv "LD_LIBRARY_PATH" new_ld_path 1;
  if negb (r =? 0) then
    msg ← strerror_errno;
    log_message LOG_ERROR ("Failed to set LD_LIBRARY_PATH: " +:+ msg);;
    mret EXIT_SYSTEM_ERROR
  else
    log_message LOG_INFO ("Library path configured: " +:+ lib_full_path);;
    log_message LOG_DEBUG ("Full LD_LIBRARY_PATH: " +:+ new_ld_path);;
    mret EXIT_SUCCESS.

Definition configure_library_path (bundle_path : string) : M Z :=
  let lib_full_path := snprintf MAX_PATH_LENGTH (bundle_path +:+ LIB_PATH) in
  found ← directory_exists lib_full_path;
  if negb found then
    log_message LOG_WARNING ("Library directory not found: " +:+ lib_full_path);;
    mret EXIT_SUCCESS
  else
    current_ld_path ← getenv "LD_LIBRARY_PATH";
    match current_ld_path with
    | Some cur =>
        if strlen cur >? 0 then
          if strlen lib_full_path + strlen cur + 2 >? MAX_ENV_LENGTH then
            log_message LOG_ERROR "LD_LIBRARY_PATH would exceed maximum length";;
            mret EXIT_SYSTEM_ERROR
          else
            set_ld_library_path lib_full_path
              (snprintf MAX_ENV_LENGTH (lib_full_path +:+ ":" +:+ cur))
        else
          set_ld_library_path lib_full_path (snprintf MAX_ENV_LENGTH lib_full_path)
    | None =>
        set_ld_library_path lib_full_path (snprintf MAX_ENV_LENGTH lib_full_path)
    end.

(** ** inspect_optional_components (main.c, lines 247-273) *)

Definition inspect_optional_components (bundle_path : string) : M unit :=
  let component_path := snprintf MAX_PATH_LENGTH (bundle_path +:+ METADATA_PATH) in
  found ← file_exists component_path;
  (if found : bool then log_message LOG_INFO ("Metadata file found: " +:+ component_path)
   else log_message LOG_DEBUG "Metadata file not present");;
  let component_path := snprintf MAX_PATH_LENGTH (bundle_path +:+ ICON_PATH) in
  found ← file_exists component_path;
  (if found : bool then log_message LOG_INFO ("Icon file found: " +:+ component_path)
   else log_message LOG_DEBUG "Icon file not present");;
  let component_path := snprintf MAX_PATH_LENGTH (bundle_path +:+ RES_PATH) in
  found ← directory_exists component_path;
  if found : bool then log_message LOG_INFO ("Resources directory found: " +:+ component_path)
  else log_message LOG_DEBUG "Resources directory not present".

(** ** launch_application (main.c, lines 280-314)

    The array [envp] of line 307 is never passed on: the call is execv, so
    the image gets the environment of the process. *)

Definition launch_application (bundle_path : string) : M Z :=
  result ← validate_bundle bundle_path;
  if negb (result =? EXIT_SUCCESS) then mret result
  else
    result ← configure_library_path bundle_path;
    if negb (result =? EXIT_SUCCESS) then mret result
    else
      inspect_optional_components bundle_path;;
      let exec_path := snprintf MAX_PATH_LENGTH (bundle_path +:+ EXEC_PATH) in
      log_message LOG_INFO ("Launching application: " +:+ exec_path);;
      cwd ← getcwd;
      log_message LOG_DEBUG ("Working directory: " +:+ show_string cwd);;
      let argv := [exec_path] in
      execv exec_path argv;;
      msg ← strerror_errno;
      log_message LOG_ERROR ("Failed to execute application: " +:+ msg);;
      mret EXIT_EXEC_ERROR.

(** ** print_usage (main.c, lines 320-339): one event for each printf *)

Definition usage_text (program_name : string) : list string :=
  [ APP_NAME +:+ " v" +:+ APP_VERSION +:+ newline;
    "A professional application bundle launcher for Linux systems." +:+ newline +:+ newline;
    "Usage: " +:+ program_name +:+ " <bundle_path>" +:+ newline +:+ newline;
    "Arguments:" +:+ newline;
    "  bundle_path    Path to the application bundle directory" +:+ newline +:+ newline;
    "Expected Bundle Structure:" +:+ newline;
    "  bundle_path/" +:+ newline;
    "  ├── exec/base          (Required executable)" +:+ newline;
    "  ├── library/           (Optional shared libraries)" +:+ newline;
    "  ├── resources/         (Optional resource files)" +:+ newline;
    "  ├── info.yaml          (Optional metadata)" +:+ newline;
    "  └── icon.png           (Optional application icon)" +:+ newline +:+ newline;
    "Exit Codes:" +:+ newline;
    "  0  Success" +:+ newline;
    "  1  Invalid arguments" +:+ newline;
    "  2  Bundle validation error" +:+ newline;
    "  3  Application execution error" +:+ newline;
    "  4  System error" +:+ newline ].

Definition print_usage (program_name : string) : M unit := λ p,
  (EvPrintf <$> usage_text program_name, Returns () p).

(** ** main (main.c, lines 347-377)

    [argv] is the argument vector without its final null pointer, [argc] its
    length; with an empty vector [argv[0]] is that null pointer. *)

Definition main (argv : list string) : M Z :=
  let argc := Z.of_nat (length argv) in
  if negb (argc =? 2) then
    (if argc >? 2 then log_message LOG_ERROR "Too many arguments provided"
     else log_message LOG_ERROR "Missing required bundle path argument");;
    print_usage (show_string (argv !! 0%nat));;
    mret EXIT_INVALID_ARGS
  else
    let bundle_path := default "" (argv !! 1%nat) in
    if strlen bundle_path >=? MAX_PATH_LENGTH then
      log_message LOG_ERROR
        ("Bundle path too long (max " +:+ pretty (MAX_PATH_LENGTH - 1) +:+ " characters)");;
      mret EXIT_INVALID_ARGS
    else
      log_message LOG_INFO ("Starting " +:+ APP_NAME +:+ " v" +:+ APP_VERSION);;
      log_message LOG_INFO ("Target bundle: " +:+ bundle_path);;
      result ← launch_application bundle_path;
      log_message LOG_ERROR "Application launcher terminated unexpectedly";;
      mret result.

End Launcher.

Arguments snprintf : simpl never.
Arguments strlen : simpl never.
Arguments String.append : simpl never.

(** ** The vocabulary of the specification *)

(** The buffer after [snprintf(buf, sizeof(buf), "%s%s", bundle_path, SUFFIX)]
    (lines 186, 212, 251, 259, 267 and 300). *)
Definition full_path_of (bundle_path suffix : string) : string :=
  snprintf MAX_PATH_LENGTH (bundle_path +:+ suffix).

(** The file system, as stat(2) and access(2) answer for a path name: a
    symbolic link is followed, and a name the kernel refuses denotes
    nothing. *)
Definition is_directory (k : kernel) (path : string) : bool :=
  match sys_stat k path with Ok mode => S_ISDIR mode | Err _ => false end.

Definition is_regular_or_link (k : kernel) (path : string) : bool :=
  match sys_stat k path with Ok mode => S_ISREG mode || S_ISLNK mode | Err _ => false end.

Definition is_executable (k : kernel) (path : string) : bool :=
  match sys_access k path X_OK with Ok _ => true | Err _ => false end.

(** The text [new_ld_path] is filled with (lines 227 and 229), before it is
    cut to the size of the buffer. *)
Definition combined_ld_path (lib_full_path : string) (current_ld_path : option string) : string :=
  match current_ld_path with
  | Some cur => if strlen cur >? 0 then lib_full_path +:+ ":" +:+ cur else lib_full_path
  | None => lib_full_path
  end.

(** Kinds of events. *)
Definition is_filesystem_event (e : event) : bool :=
  match e with EvStat _ | EvAccess _ _ | EvExecv _ _ => true | _ => false end.

Definition is_environment_event (e : event) : bool :=
  match e with EvGetenv _ | EvSetenv _ _ _ => true | _ => false end.

Definition is_exec_event (e : event) : bool :=
  match e with EvExecv _ _ => true | _ => false end.

(** Neither an execv nor an access to the environment. *)
Definition quiet (e : event) : Prop :=
  is_exec_event e = false ∧ is_environment_event e = false.

Definition stat_trace (path : string) : list event :=
  if strlen path =? 0 then [] else [EvStat path].

(** The combined string, with its terminating byte, does not fit the buffer
    [new_ld_path]. *)
Definition ld_path_overflows (lib_full_path : string) (current_ld_path : option string) : bool :=
  strlen (combined_ld_path lib_full_path current_ld_path) + 1 >? MAX_ENV_LENGTH.

(** The process after a stat or an access: only [errno] can differ. *)
Definition after_stat (k : kernel) (path : string) (st : process) : process :=
  if strlen path =? 0 then st
  else match sys_stat k path with Ok _ => st | Err e => set_errno e st end.

Definition after_access (k : kernel) (path : string) (st : process) : process :=
  match sys_access k path X_OK with Ok _ => st | Err e => set_errno e st end.

(** The three checks of validate_bundle (lines 180, 187 and 193). *)
Definition bundle_is_valid (k : kernel) (bundle_path : string) : bool :=
  is_directory k bundle_path
  && is_regular_or_link k (full_path_of bundle_path EXEC_PATH)
  && is_executable k (full_path_of bundle_path EXEC_PATH).

(** The events of a validation that succeeds. *)
Definition validated_events (bundle_path : string) : list event :=
  let full_path := full_path_of bundle_path EXEC_PATH in
  [EvStat bundle_path; EvStat full_path; EvAccess full_path X_OK;
   EvLog LOG_INFO ("Bundle validation successful: " +:+ bundle_path)].

(** The events of inspect_optional_components, and the process after it. *)
Definition inspect_events (k : kernel) (bundle_path : string) : list event :=
  let metadata := full_path_of bundle_path METADATA_PATH in
  let icon := full_path_of bundle_path ICON_PATH in
  let resources := full_path_of bundle_path RES_PATH in
  [EvStat metadata;
   if is_regular_or_link k metadata then EvLog LOG_INFO ("Metadata file found: " +:+ metadata)
   else EvLog LOG_DEBUG "Metadata file not present";
   EvStat icon;
   if is_regular_or_link k icon then EvLog LOG_INFO ("Icon file found: " +:+ icon)
   else EvLog LOG_DEBUG "Icon file not present";
   EvStat resources;
   if is_directory k resources then EvLog LOG_INFO ("Resources directory found: " +:+ resources)
   else EvLog LOG_DEBUG "Resources directory not present"].

Definition after_inspect (k : kernel) (bundle_path : string) (st : process) : process :=
  after_stat k (full_path_of bundle_path RES_PATH)
    (after_stat k (full_path_of bundle_path ICON_PATH)
       (after_stat k (full_path_of bundle_path METADATA_PATH) st)).

(** Lines 300-313: the handoff itself, from the process [st]. *)
Definition handoff (k : kernel) (bundle_path : string) (st : process) : list event * outcome Z :=
  let exec_path := full_path_of bundle_path EXEC_PATH in
  let before :=
    [EvLog LOG_INFO ("Launching application: " +:+ exec_path);
     EvGetcwd;
     EvLog LOG_DEBUG ("Working directory: " +:+ show_string (k_cwd k));
     EvExecv exec_path [exec_path]] in
  match k_execv k exec_path [exec_path] with
  | None =>
      (before,
       Replaced {| img_path := exec_path; img_argv := [exec_path]; img_environ := environ st |})
  | Some e =>
      (before ++ [EvLog LOG_ERROR ("Failed to execute application: " +:+ k_strerror k e)],
       Returns EXIT_EXEC_ERROR (set_errno e st))
  end.

(** ** Example systems *)

Fixpoint assoc {A} (table : list (string * A)) (key : string) : option A :=
  match table with
  | [] => None
  | (name, a) :: table' => if String.eqb name key then Some a else assoc table' key
  end.

Definition EACCES : Z := 13.
Definition ENOMEM : Z := 12.
Definition ENOEXEC : Z := 8.

(** A kernel given by tables: the modes of the path names that resolve, the
    path names access(2) grants [X_OK] for (execv runs these, and no others),
    and the errors setenv and execv are made to fail with, if any. *)
Definition table_kernel (inodes : list (string * Z)) (executable : list string)
    (setenv_error execv_error : option Z) : kernel :=
  {| k_inode := λ path,
       match assoc inodes path with Some mode => Ok mode | None => Err ENOENT end;
     k_access := λ path mode,
       if bool_decide (path ∈ executable) then Ok () else Err EACCES;
     k_setenv := λ _ _, setenv_error;
     k_execv := λ path _,
       match execv_error with
       | Some e => Some e
       | None => if bool_decide (path ∈ executable) then None else Some EACCES
       end;
     k_cwd := Some "/home/user";
     k_strerror := λ e, "error " +:+ pretty e |}.

Definition mode_directory : Z := 16877.  (* 040755 *)
Definition mode_program : Z := 33261.    (* 0100755 *)
Definition mode_plain : Z := 33188.      (* 0100644 *)

(** The bundle /tmp/app, with its executable and a library directory. *)
Definition app_files : list (string * Z) :=
  [("/tmp/app", mode_directory);
   ("/tmp/app/exec", mode_directory);
   ("/tmp/app/exec/base", mode_program);
   ("/tmp/app/library", mode_directory)].

Definition app_kernel : kernel :=
  table_kernel app_files ["/tmp/app/exec/base"] None None.

Definition app_kernel_no_exec : kernel :=
  table_kernel app_files ["/tmp/app/exec/base"] None (Some ENOEXEC).

Definition app_kernel_no_setenv : kernel :=
  table_kernel app_files ["/tmp/app/exec/base"] (Some ENOMEM) None.

(** The bundle /tmp/app without a library directory, and the same with an
    executable of mode 644. *)
Definition plain_app_kernel : kernel :=
  table_kernel
    [("/tmp/app", mode_directory); ("/tmp/app/exec", mode_directory);
     ("/tmp/app/exec/base", mode_program)]
    ["/tmp/app/exec/base"] None None.

Definition mode_644_kernel : kernel :=
  table_kernel
    [("/tmp/app", mode_directory); ("/tmp/app/exec", mode_directory);
     ("/tmp/app/exec/base", mode_plain)]
    [] None None.

(** A system without the bundle. *)
Definition bare_kernel : kernel := table_kernel [] [] None None.

Definition fresh_process (env : gmap string string) : process :=
  {| environ := env; errno := 0 |}.

(** A process whose library search path is set, and one where it is empty. *)
Definition host_process : process :=
  fresh_process (<["LD_LIBRARY_PATH" := "/usr/local/lib"]> (<["HOME" := "/home/user"]> ∅)).

Definition empty_path_process : process :=
  fresh_process (<["LD_LIBRARY_PATH" := ""]> (<["HOME" := "/home/user"]> ∅)).

(** A bundle whose path name is long: /tmp/app followed by [n] times "/.",
    which names the same directory. *)
Fixpoint repeat_string (n : nat) (s : string) : string :=
  match n with
  | O => ""
  | S n' => s +:+ repeat_string n' s
  end.

Definition deep_bundle (n : nat) : string := "/tmp/app" +:+ repeat_string n "/.".

(** Two systems in which the bundle path is too long for the buffers of
    PATH_MAX bytes.  In the first the bundle, at a path of 4086 bytes, has a
    program exec/bas and no exec/base; in the second the bundle, at a path
    of 4088 bytes, has a program exec/b and a directory librar, and neither
    exec/base nor a directory library. *)
Definition long_bundle : string := deep_bundle 2039.

Definition truncated_exec_kernel : kernel :=
  table_kernel
    [(long_bundle, mode_directory);
     (long_bundle +:+ "/exec", mode_directory);
     (long_bundle +:+ "/exec/bas", mode_program)]
    [long_bundle +:+ "/exec/bas"] None None.

Definition longer_bundle : string := deep_bundle 2040.

Definition truncated_library_kernel : kernel :=
  table_kernel
    [(longer_bundle, mode_directory);
     (longer_bundle +:+ "/exec", mode_directory);
     (longer_bundle +:+ "/exec/b", mode_program);
     (longer_bundle +:+ "/librar", mode_directory)]
    [longer_bundle +:+ "/exec/b"] None None.


(** The path names of the stat calls of a trace, in order. *)
Definition stat_paths (evs : list event) : list string :=
  omap (λ e, match e with EvStat path => Some path | _ => None end) evs.

(** An informational line: level INFO or DEBUG, written to stdout. *)
Definition is_informational (e : event) : Prop :=
  match e with
  | EvStat _ | EvLog LOG_INFO _ | EvLog LOG_DEBUG _ => True
  | _ => False
  end.

(** Two more systems for the bundle path of 4088 bytes.  In both the bundle
    has its executable and a directory library on disk, under names that the
    bundle path makes too long for the kernel (4098 and 4096 bytes), and a
    program exec/b; in the second it has a directory librar as well. *)
Definition library_on_disk_kernel : kernel :=
  table_kernel
    [(longer_bundle, mode_directory);
     (longer_bundle +:+ "/exec", mode_directory);
     (longer_bundle +:+ "/exec/b", mode_program);
     (longer_bundle +:+ "/exec/base", mode_program);
     (longer_bundle +:+ "/library", mode_directory)]
    [longer_bundle +:+ "/exec/b"; longer_bundle +:+ "/exec/base"] None None.

Definition library_and_librar_kernel : kernel :=
  table_kernel
    [(longer_bundle, mode_directory);
     (longer_bundle +:+ "/exec", mode_directory);
     (longer_bundle +:+ "/exec/b", mode_program);
     (longer_bundle +:+ "/exec/base", mode_program);
     (longer_bundle +:+ "/library", mode_directory);
     (longer_bundle +:+ "/librar", mode_directory)]
    [longer_bundle +:+ "/exec/b"; longer_bundle +:+ "/exec/base"] None None.

(** The texts of the printf calls of a trace, in order. *)
Definition printf_texts (evs : list event) : list string :=
  omap (λ e, match e with EvPrintf text => Some text | _ => None end) evs.

(** * Properties *)

(** One step of a run: reduce the binds whose first action is known. *)
Ltac run_step := cbv beta iota delta [negb].

(** ** Strings *)

Lemma strlen_nonneg s : 0 ≤ strlen s.
Proof. unfold strlen. lia. Qed.

Lemma strlen_app a b : strlen (a +:+ b) = strlen a + strlen b.
Proof.
  unfold strlen. induction a as [|c a IH]; simpl String.length in *.
  - reflexivity.
  - change (String c a +:+ b) with (String c (a +:+ b)).
    simpl String.length. lia.
Qed.

Lemma substring_all n s : (String.length s ≤ n)%nat → String.substring 0 n s = s.
Proof.
  revert n. induction s as [|c s IH]; intros [|n] Hn; simpl in *; try reflexivity; try lia.
  f_equal. apply IH. lia.
Qed.

Lemma length_substring n s :
  String.length (String.substring 0 n s) = Nat.min n (String.length s).
Proof.
  revert n. induction s as [|c s IH]; intros [|n]; simpl; try reflexivity.
  now rewrite IH.
Qed.

Lemma snprintf_fits size s : strlen s < size → snprintf size s = s.
Proof.
  unfold snprintf, strlen. intros H. apply substring_all. lia.
Qed.

Lemma strlen_snprintf size s : 0 < size → strlen (snprintf size s) = Z.min (size - 1) (strlen s).
Proof.
  unfold snprintf, strlen. intros H. rewrite length_substring. lia.
Qed.

Lemma full_path_of_fits p suffix :
  strlen p + strlen suffix < PATH_MAX → full_path_of p suffix = p +:+ suffix.
Proof.
  intros H. apply snprintf_fits. rewrite strlen_app. exact H.
Qed.

Lemma strlen_full_path_of p suffix :
  strlen (full_path_of p suffix) = Z.min (PATH_MAX - 1) (strlen p + strlen suffix).
Proof.
  unfold full_path_of. rewrite strlen_snprintf by reflexivity.
  now rewrite strlen_app.
Qed.

(** ** The kernel's limit on path names *)

Lemma sys_stat_ok_length k path mode :
  sys_stat k path = Ok mode → 0 < strlen path < PATH_MAX.
Proof.
  unfold sys_stat, sys_path. pose proof (strlen_nonneg path).
  destruct (strlen path =? 0) eqn:E0; [discriminate|].
  destruct (PATH_MAX <=? strlen path) eqn:E1; [discriminate|]. lia.
Qed.

Lemma is_directory_length k path : is_directory k path = true → 0 < strlen path < PATH_MAX.
Proof.
  unfold is_directory. destruct (sys_stat k path) eqn:E; [|discriminate].
  intros _. eapply sys_stat_ok_length, E.
Qed.

Lemma is_regular_or_link_length k path :
  is_regular_or_link k path = true → 0 < strlen path < PATH_MAX.
Proof.
  unfold is_regular_or_link. destruct (sys_stat k path) eqn:E; [|discriminate].
  intros _. eapply sys_stat_ok_length, E.
Qed.

(** ** Running the launcher, function by function *)

Lemma bind_run {A B} (m : M A) (f : A → M B) st evs1 a st1 evs2 o :
  m st = (evs1, Returns a st1) → f a st1 = (evs2, o) →
  (m ≫= f) st = (evs1 ++ evs2, o).
Proof.
  intros Hm Hf. unfold mbind, M_bind. now rewrite Hm, Hf.
Qed.

Lemma bind_replaced {A B} (m : M A) (f : A → M B) st evs img :
  m st = (evs, Replaced img) → (m ≫= f) st = (evs, Replaced img).
Proof.
  intros Hm. unfold mbind, M_bind. now rewrite Hm.
Qed.

Lemma environ_after_stat k path st : environ (after_stat k path st) = environ st.
Proof.
  unfold after_stat. destruct (strlen path =? 0); [reflexivity|].
  now destruct (sys_stat k path).
Qed.

Lemma environ_after_access k path st : environ (after_access k path st) = environ st.
Proof. unfold after_access. now destruct (sys_access k path X_OK). Qed.

Lemma sys_stat_empty k path : (strlen path =? 0) = true → sys_stat k path = Err ENOENT.
Proof. intros H. unfold sys_stat, sys_path. now rewrite H. Qed.

Lemma directory_exists_run k path st :
  directory_exists k path st
  = (stat_trace path, Returns (is_directory k path) (after_stat k path st)).
Proof.
  unfold directory_exists, stat_trace, is_directory, after_stat.
  destruct (strlen path =? 0) eqn:E.
  - now rewrite (sys_stat_empty k path E).
  - unfold mbind, M_bind, stat. now destruct (sys_stat k path).
Qed.

Lemma file_exists_run k path st :
  file_exists k path st
  = (stat_trace path, Returns (is_regular_or_link k path) (after_stat k path st)).
Proof.
  unfold file_exists, stat_trace, is_regular_or_link, after_stat.
  destruct (strlen path =? 0) eqn:E.
  - now rewrite (sys_stat_empty k path E).
  - unfold mbind, M_bind, stat. now destruct (sys_stat k path).
Qed.

Lemma access_run k path st :
  access k path X_OK st
  = ([EvAccess path X_OK],
     Returns (if is_executable k path then 0 else -1) (after_access k path st)).
Proof.
  unfold access, is_executable, after_access. now destruct (sys_access k path X_OK).
Qed.

Lemma after_stat_directory k path st : is_directory k path = true → after_stat k path st = st.
Proof.
  unfold is_directory, after_stat. destruct (strlen path =? 0); [reflexivity|].
  now destruct (sys_stat k path).
Qed.

Lemma after_stat_file k path st : is_regular_or_link k path = true → after_stat k path st = st.
Proof.
  unfold is_regular_or_link, after_stat. destruct (strlen path =? 0); [reflexivity|].
  now destruct (sys_stat k path).
Qed.

Lemma after_access_executable k path st : is_executable k path = true → after_access k path st = st.
Proof. unfold is_executable, after_access. now destruct (sys_access k path X_OK). Qed.

Lemma stat_trace_directory k path : is_directory k path = true → stat_trace path = [EvStat path].
Proof.
  intros H. apply is_directory_length in H. unfold stat_trace.
  destruct (Z.eqb_spec (strlen path) 0); [lia | reflexivity].
Qed.

Lemma stat_trace_full_path_of p suffix :
  0 < strlen suffix → stat_trace (full_path_of p suffix) = [EvStat (full_path_of p suffix)].
Proof.
  intros H. unfold stat_trace. pose proof (strlen_full_path_of p suffix) as L.
  pose proof (strlen_nonneg p). unfold PATH_MAX in L.
  destruct (Z.eqb_spec (strlen (full_path_of p suffix)) 0); [lia | reflexivity].
Qed.

(** validate_bundle, case by case. *)
Lemma validate_bundle_run k p st :
  let full_path := full_path_of p EXEC_PATH in
  validate_bundle k p st =
    if is_directory k p then
      if is_regular_or_link k full_path then
        if is_executable k full_path then
          ([EvStat p; EvStat full_path; EvAccess full_path X_OK;
            EvLog LOG_INFO ("Bundle validation successful: " +:+ p)],
           Returns EXIT_SUCCESS st)
        else
          ([EvStat p; EvStat full_path; EvAccess full_path X_OK;
            EvLog LOG_ERROR ("Executable lacks execute permissions: " +:+ full_path)],
           Returns EXIT_BUNDLE_ERROR (after_access k full_path st))
      else
        ([EvStat p; EvStat full_path;
          EvLog LOG_ERROR ("Required executable not found: " +:+ full_path)],
         Returns EXIT_BUNDLE_ERROR (after_stat k full_path st))
    else
      (stat_trace p ++ [EvLog LOG_ERROR ("Bundle directory not found: " +:+ p)],
       Returns EXIT_BUNDLE_ERROR (after_stat k p st)).
Proof.
  intros full_path. unfold validate_bundle. fold (full_path_of p EXEC_PATH). fold full_path.
  unfold mbind, M_bind. rewrite directory_exists_run. run_step.
  destruct (is_directory k p) eqn:Hd; run_step; [|reflexivity].
  rewrite (after_stat_directory _ _ _ Hd), (stat_trace_directory _ _ Hd).
  pose proof (stat_trace_full_path_of p EXEC_PATH eq_refl) as Ht. fold full_path in Ht.
  rewrite file_exists_run, Ht. run_step.
  destruct (is_regular_or_link k full_path) eqn:Hf; run_step; [|reflexivity].
  rewrite (after_stat_file _ _ _ Hf), access_run. run_step.
  destruct (is_executable k full_path) eqn:Hx; run_step; [|reflexivity].
  now rewrite (after_access_executable _ _ _ Hx).
Qed.

(** Lines 232-240. *)
Lemma set_ld_library_path_run k lib new st :
  set_ld_library_path k lib new st =
    match k_setenv k "LD_LIBRARY_PATH" new with
    | Some e =>
        ([EvSetenv "LD_LIBRARY_PATH" new 1;
          EvLog LOG_ERROR ("Failed to set LD_LIBRARY_PATH: " +:+ k_strerror k e)],
         Returns EXIT_SYSTEM_ERROR (set_errno e st))
    | None =>
        ([EvSetenv "LD_LIBRARY_PATH" new 1;
          EvLog LOG_INFO ("Library path configured: " +:+ lib);
          EvLog LOG_DEBUG ("Full LD_LIBRARY_PATH: " +:+ new)],
         Returns EXIT_SUCCESS (set_environ (<["LD_LIBRARY_PATH" := new]> (environ st)) st))
    end.
Proof.
  unfold set_ld_library_path, mbind, M_bind, setenv.
  destruct (k_setenv k "LD_LIBRARY_PATH" new) as [e|]; run_step; [reflexivity|].
  change (1 =? 0) with false. cbv iota.
  now destruct (environ st !! "LD_LIBRARY_PATH").
Qed.

Lemma strlen_full_path_of_bound p suffix : strlen (full_path_of p suffix) + 1 ≤ MAX_ENV_LENGTH.
Proof.
  rewrite strlen_full_path_of. unfold PATH_MAX, MAX_ENV_LENGTH. lia.
Qed.

(** configure_library_path, case by case. *)
Lemma configure_library_path_run k p st :
  let lib := full_path_of p LIB_PATH in
  let new := combined_ld_path lib (environ st !! "LD_LIBRARY_PATH") in
  configure_library_path k p st =
    if is_directory k lib then
      if ld_path_overflows lib (environ st !! "LD_LIBRARY_PATH") then
        ([EvStat lib; EvGetenv "LD_LIBRARY_PATH";
          EvLog LOG_ERROR "LD_LIBRARY_PATH would exceed maximum length"],
         Returns EXIT_SYSTEM_ERROR st)
      else
        match k_setenv k "LD_LIBRARY_PATH" new with
        | Some e =>
            ([EvStat lib; EvGetenv "LD_LIBRARY_PATH"; EvSetenv "LD_LIBRARY_PATH" new 1;
              EvLog LOG_ERROR ("Failed to set LD_LIBRARY_PATH: " +:+ k_strerror k e)],
             Returns EXIT_SYSTEM_ERROR (set_errno e st))
        | None =>
            ([EvStat lib; EvGetenv "LD_LIBRARY_PATH"; EvSetenv "LD_LIBRARY_PATH" new 1;
              EvLog LOG_INFO ("Library path configured: " +:+ lib);
              EvLog LOG_DEBUG ("Full LD_LIBRARY_PATH: " +:+ new)],
             Returns EXIT_SUCCESS (set_environ (<["LD_LIBRARY_PATH" := new]> (environ st)) st))
        end
    else
      ([EvStat lib; EvLog LOG_WARNING ("Library directory not found: " +:+ lib)],
       Returns EXIT_SUCCESS (after_stat k lib st)).
Proof.
  intros lib new. unfold configure_library_path. fold (full_path_of p LIB_PATH). fold lib.
  pose proof (stat_trace_full_path_of p LIB_PATH eq_refl) as Ht. fold lib in Ht.
  pose proof (strlen_full_path_of_bound p LIB_PATH) as Hlib. fold lib in Hlib.
  unfold mbind, M_bind. rewrite directory_exists_run, Ht. run_step.
  destruct (is_directory k lib) eqn:Hd; run_step; [|reflexivity].
  rewrite (after_stat_directory _ _ _ Hd). unfold getenv. run_step.
  unfold ld_path_overflows. subst new. unfold combined_ld_path.
  destruct (environ st !! "LD_LIBRARY_PATH") as [cur|] eqn:Hcur.
  - destruct (Z.gtb_spec (strlen cur) 0) as [Hpos|Hzero].
    + rewrite !strlen_app. change (strlen ":") with 1.
      replace (strlen lib + (1 + strlen cur) + 1) with (strlen lib + strlen cur + 2) by lia.
      destruct (Z.gtb_spec (strlen lib + strlen cur + 2) MAX_ENV_LENGTH) as [Hover|Hfit].
      * reflexivity.
      * rewrite snprintf_fits by (rewrite !strlen_app; change (strlen ":") with 1; lia).
        rewrite set_ld_library_path_run.
        now destruct (k_setenv k "LD_LIBRARY_PATH" (lib +:+ ":" +:+ cur)).
    + destruct (Z.gtb_spec (strlen lib + 1) MAX_ENV_LENGTH) as [Hover|Hfit]; [lia|].
      rewrite snprintf_fits by lia. rewrite set_ld_library_path_run.
      now destruct (k_setenv k "LD_LIBRARY_PATH" lib).
  - destruct (Z.gtb_spec (strlen lib + 1) MAX_ENV_LENGTH) as [Hover|Hfit]; [lia|].
    rewrite snprintf_fits by lia. rewrite set_ld_library_path_run.
    now destruct (k_setenv k "LD_LIBRARY_PATH" lib).
Qed.

Lemma environ_after_inspect k p st : environ (after_inspect k p st) = environ st.
Proof. unfold after_inspect. now rewrite !environ_after_stat. Qed.

Lemma inspect_optional_components_run k p st :
  inspect_optional_components k p st
  = (inspect_events k p, Returns () (after_inspect k p st)).
Proof.
  unfold inspect_optional_components, inspect_events, after_inspect.
  fold (full_path_of p METADATA_PATH) (full_path_of p ICON_PATH) (full_path_of p RES_PATH).
  pose proof (stat_trace_full_path_of p METADATA_PATH eq_refl) as Hm.
  pose proof (stat_trace_full_path_of p ICON_PATH eq_refl) as Hi.
  pose proof (stat_trace_full_path_of p RES_PATH eq_refl) as Hr.
  unfold mbind, M_bind, log_message, emit. rewrite file_exists_run, Hm. run_step.
  destruct (is_regular_or_link k (full_path_of p METADATA_PATH)); run_step;
    rewrite file_exists_run, Hi; run_step;
    destruct (is_regular_or_link k (full_path_of p ICON_PATH)); run_step;
    rewrite directory_exists_run, Hr; run_step;
    now destruct (is_directory k (full_path_of p RES_PATH)).
Qed.

Lemma handoff_run k p st :
  let exec_path := full_path_of p EXEC_PATH in
  (log_message LOG_INFO ("Launching application: " +:+ exec_path);;
   cwd ← getcwd k;
   log_message LOG_DEBUG ("Working directory: " +:+ show_string cwd);;
   execv k exec_path [exec_path];;
   msg ← strerror_errno k;
   log_message LOG_ERROR ("Failed to execute application: " +:+ msg);;
   mret EXIT_EXEC_ERROR) st
  = handoff k p st.
Proof.
  intros exec_path. unfold handoff. fold exec_path.
  unfold mbind, M_bind, execv, getcwd. run_step.
  now destruct (k_execv k exec_path [exec_path]).
Qed.

Lemma validate_bundle_valid k p st :
  bundle_is_valid k p = true →
  validate_bundle k p st = (validated_events p, Returns EXIT_SUCCESS st).
Proof.
  unfold bundle_is_valid. rewrite !andb_true_iff. intros [[Hd Hf] Hx].
  rewrite validate_bundle_run. cbv zeta. now rewrite Hd, Hf, Hx.
Qed.

Lemma validate_bundle_invalid k p st :
  bundle_is_valid k p = false →
  ∃ evs st', validate_bundle k p st = (evs, Returns EXIT_BUNDLE_ERROR st')
    ∧ environ st' = environ st
    ∧ Forall (λ e, is_exec_event e = false ∧ is_environment_event e = false) evs.
Proof.
  unfold bundle_is_valid. intros H. rewrite validate_bundle_run. cbv zeta.
  destruct (is_directory k p) eqn:Hd.
  - destruct (is_regular_or_link k (full_path_of p EXEC_PATH)) eqn:Hf.
    + destruct (is_executable k (full_path_of p EXEC_PATH)) eqn:Hx; [discriminate|].
      eexists _, _. split; [reflexivity|]. split; [apply environ_after_access|].
      repeat constructor.
    + eexists _, _. split; [reflexivity|]. split; [apply environ_after_stat|].
      repeat constructor.
  - eexists _, _. split; [reflexivity|]. split; [apply environ_after_stat|].
    unfold stat_trace. destruct (strlen p =? 0); repeat constructor.
Qed.

(** launch_application, phase by phase. *)
Lemma launch_application_run k p st :
  launch_application k p st =
    if bundle_is_valid k p then
      match configure_library_path k p st with
      | (evs_c, Returns r st_c) =>
          if r =? EXIT_SUCCESS then
            (validated_events p ++ evs_c ++ inspect_events k p
               ++ (handoff k p (after_inspect k p st_c)).1,
             (handoff k p (after_inspect k p st_c)).2)
          else (validated_events p ++ evs_c, Returns r st_c)
      | (evs_c, Replaced img) => (validated_events p ++ evs_c, Replaced img)
      end
    else validate_bundle k p st.
Proof.
  unfold launch_application.
  destruct (bundle_is_valid k p) eqn:Hv.
  - unfold mbind at 1. unfold M_bind at 1. rewrite (validate_bundle_valid _ _ _ Hv).
    change (negb (EXIT_SUCCESS =? EXIT_SUCCESS)) with false. cbv iota.
    unfold mbind at 1. unfold M_bind at 1.
    destruct (configure_library_path k p st) as [evs_c [r st_c|img]]; [|reflexivity].
    destruct (r =? EXIT_SUCCESS) eqn:Hr; run_step;
      [|unfold mret, M_ret; now rewrite app_nil_r].
    unfold mbind at 1. unfold M_bind at 1. rewrite inspect_optional_components_run.
    fold (full_path_of p EXEC_PATH).
    rewrite (handoff_run k p (after_inspect k p st_c)).
    now destruct (handoff k p (after_inspect k p st_c)).
  - destruct (validate_bundle_invalid _ _ st Hv) as (evs & st' & Hrun & _).
    unfold mbind at 1. unfold M_bind at 1. rewrite Hrun.
    change (negb (EXIT_BUNDLE_ERROR =? EXIT_SUCCESS)) with true. cbv iota.
    unfold mret, M_ret. now rewrite app_nil_r.
Qed.

(** ** main *)

Lemma main_wrong_count_run k argv st :
  length argv ≠ 2%nat →
  main k argv st =
    (EvLog LOG_ERROR
       (if Z.of_nat (length argv) >? 2 then "Too many arguments provided"
        else "Missing required bundle path argument")
     :: (EvPrintf <$> usage_text (show_string (argv !! 0%nat))),
     Returns EXIT_INVALID_ARGS st).
Proof.
  intros Hn. unfold main.
  destruct (Z.eqb_spec (Z.of_nat (length argv)) 2) as [E|E]; [lia|]. run_step.
  unfold mbind, M_bind, print_usage, log_message, emit, mret, M_ret.
  destruct (Z.of_nat (length argv) >? 2); run_step; now rewrite app_nil_r.
Qed.

Lemma main_too_long_run k prog p st :
  MAX_PATH_LENGTH ≤ strlen p →
  main k [prog; p] st =
    ([EvLog LOG_ERROR
        ("Bundle path too long (max " +:+ pretty (MAX_PATH_LENGTH - 1) +:+ " characters)")],
     Returns EXIT_INVALID_ARGS st).
Proof.
  intros Hlen. unfold main. change (Z.of_nat (length [prog; p]) =? 2) with true. run_step.
  change (default "" ([prog; p] !! 1%nat)) with p.
  destruct (Z.geb_spec (strlen p) MAX_PATH_LENGTH) as [H|H]; [reflexivity | lia].
Qed.

Lemma main_launch_run k prog p st :
  strlen p < MAX_PATH_LENGTH →
  main k [prog; p] st =
    match launch_application k p st with
    | (evs, Returns result st') =>
        ([EvLog LOG_INFO ("Starting " +:+ APP_NAME +:+ " v" +:+ APP_VERSION);
          EvLog LOG_INFO ("Target bundle: " +:+ p)]
         ++ evs ++ [EvLog LOG_ERROR "Application launcher terminated unexpectedly"],
         Returns result st')
    | (evs, Replaced img) =>
        ([EvLog LOG_INFO ("Starting " +:+ APP_NAME +:+ " v" +:+ APP_VERSION);
          EvLog LOG_INFO ("Target bundle: " +:+ p)] ++ evs,
         Replaced img)
    end.
Proof.
  intros Hlen. unfold main. change (Z.of_nat (length [prog; p]) =? 2) with true. run_step.
  change (default "" ([prog; p] !! 1%nat)) with p.
  destruct (Z.geb_spec (strlen p) MAX_PATH_LENGTH) as [H|H]; [lia|].
  unfold mbind, M_bind, log_message, emit, mret, M_ret. run_step.
  destruct (launch_application k p st) as [evs [result st'|img]]; reflexivity.
Qed.

Lemma main_returns_launch_result k prog p st evs result st' :
  strlen p < MAX_PATH_LENGTH →
  launch_application k p st = (evs, Returns result st') →
  main k [prog; p] st =
    ([EvLog LOG_INFO ("Starting " +:+ APP_NAME +:+ " v" +:+ APP_VERSION);
      EvLog LOG_INFO ("Target bundle: " +:+ p)]
     ++ evs ++ [EvLog LOG_ERROR "Application launcher terminated unexpectedly"],
     Returns result st').
Proof.
  intros Hlen Hrun. now rewrite (main_launch_run _ _ _ _ Hlen), Hrun.
Qed.

(** ** The end-to-end scenarios of the specification *)

(** A: the executable is there and no library directory; the process becomes
    /tmp/app/exec/base, with no further argument and the environment as it
    was. *)
Example scenario_launch :
  (main plain_app_kernel ["launcher"; "/tmp/app"] host_process).2
  = Replaced {| img_path := "/tmp/app/exec/base";
                img_argv := ["/tmp/app/exec/base"];
                img_environ := environ host_process |}.
Proof. vm_compute. reflexivity. Qed.

(** B: no bundle; exit code 2, and the error line names the directory. *)
Example scenario_missing_bundle :
  main bare_kernel ["launcher"; "/tmp/app"] (fresh_process ∅)
  = ([EvLog LOG_INFO "Starting Application Launcher v1.0.0";
      EvLog LOG_INFO "Target bundle: /tmp/app";
      EvStat "/tmp/app";
      EvLog LOG_ERROR "Bundle directory not found: /tmp/app";
      EvLog LOG_ERROR "Application launcher terminated unexpectedly"],
     Returns 2 (set_errno ENOENT (fresh_process ∅))).
Proof. vm_compute. reflexivity. Qed.

(** C: the executable has mode 644; exit code 2, and the error line names
    the permission. *)
Example scenario_mode_644 :
  main mode_644_kernel ["launcher"; "/tmp/app"] (fresh_process ∅)
  = ([EvLog LOG_INFO "Starting Application Launcher v1.0.0";
      EvLog LOG_INFO "Target bundle: /tmp/app";
      EvStat "/tmp/app";
      EvStat "/tmp/app/exec/base";
      EvAccess "/tmp/app/exec/base" X_OK;
      EvLog LOG_ERROR "Executable lacks execute permissions: /tmp/app/exec/base";
      EvLog LOG_ERROR "Application launcher terminated unexpectedly"],
     Returns 2 (set_errno EACCES (fresh_process ∅))).
Proof. vm_compute. reflexivity. Qed.

(** With a library directory and a search path already set. *)
Example scenario_library :
  (main app_kernel ["launcher"; "/tmp/app"] host_process).2
  = Replaced {| img_path := "/tmp/app/exec/base";
                img_argv := ["/tmp/app/exec/base"];
                img_environ :=
                  <["LD_LIBRARY_PATH" := "/tmp/app/library:/usr/local/lib"]>
                    (environ host_process) |}.
Proof. vm_compute. reflexivity. Qed.

(** ** The phases of launch_application *)

Lemma configure_library_path_outcome k p st :
  ∃ evs r st', configure_library_path k p st = (evs, Returns r st')
    ∧ (r = EXIT_SUCCESS ∨ r = EXIT_SYSTEM_ERROR)
    ∧ Forall (λ e, is_exec_event e = false) evs.
Proof.
  rewrite configure_library_path_run. cbv zeta.
  destruct (is_directory k (full_path_of p LIB_PATH)).
  - destruct (ld_path_overflows _ _).
    + eexists _, _, _. split; [reflexivity|]. split; [now right | repeat constructor].
    + destruct (k_setenv k "LD_LIBRARY_PATH" _).
      * eexists _, _, _. split; [reflexivity|]. split; [now right | repeat constructor].
      * eexists _, _, _. split; [reflexivity|]. split; [now left | repeat constructor].
  - eexists _, _, _. split; [reflexivity|]. split; [now left | repeat constructor].
Qed.

Lemma validated_events_quiet p : Forall quiet (validated_events p).
Proof. repeat constructor. Qed.

Lemma inspect_events_quiet k p : Forall quiet (inspect_events k p).
Proof.
  unfold inspect_events.
  destruct (is_regular_or_link k (full_path_of p METADATA_PATH)),
    (is_regular_or_link k (full_path_of p ICON_PATH)),
    (is_directory k (full_path_of p RES_PATH)); repeat constructor.
Qed.

Lemma launch_application_cases k p st :
  (bundle_is_valid k p = false ∧
   ∃ evs st', validate_bundle k p st = (evs, Returns EXIT_BUNDLE_ERROR st')
     ∧ launch_application k p st = (evs, Returns EXIT_BUNDLE_ERROR st')
     ∧ environ st' = environ st ∧ Forall quiet evs)
  ∨ (bundle_is_valid k p = true ∧
     ∃ evs_c st_c, configure_library_path k p st = (evs_c, Returns EXIT_SYSTEM_ERROR st_c)
       ∧ Forall (λ e, is_exec_event e = false) evs_c
       ∧ launch_application k p st
         = (validated_events p ++ evs_c, Returns EXIT_SYSTEM_ERROR st_c))
  ∨ (bundle_is_valid k p = true ∧
     ∃ evs_c st_c, configure_library_path k p st = (evs_c, Returns EXIT_SUCCESS st_c)
       ∧ Forall (λ e, is_exec_event e = false) evs_c
       ∧ launch_application k p st
         = (validated_events p ++ evs_c ++ inspect_events k p
              ++ (handoff k p (after_inspect k p st_c)).1,
            (handoff k p (after_inspect k p st_c)).2)).
Proof.
  rewrite launch_application_run.
  destruct (bundle_is_valid k p) eqn:Hv.
  - right.
    destruct (configure_library_path_outcome k p st) as (evs_c & r & st_c & Hc & [->| ->] & Hq);
      rewrite Hc.
    + right. split; [reflexivity|]. now exists evs_c, st_c.
    + left. split; [reflexivity|]. now exists evs_c, st_c.
  - left. split; [reflexivity|].
    destruct (validate_bundle_invalid _ _ st Hv) as (evs & st' & Hrun & Henv & Hq).
    now exists evs, st'.
Qed.

Lemma quiet_no_exec evs path argv : Forall quiet evs → EvExecv path argv ∉ evs.
Proof.
  intros Hq Hin. rewrite Forall_forall in Hq. destruct (Hq _ Hin) as [H _]. discriminate.
Qed.

Lemma no_exec_event evs path argv :
  Forall (λ e, is_exec_event e = false) evs → EvExecv path argv ∉ evs.
Proof.
  intros Hq Hin. rewrite Forall_forall in Hq. specialize (Hq _ Hin). discriminate.
Qed.

Lemma handoff_exec_event k p st path argv :
  EvExecv path argv ∈ (handoff k p st).1 →
  path = full_path_of p EXEC_PATH ∧ argv = [full_path_of p EXEC_PATH].
Proof.
  unfold handoff. cbv zeta.
  destruct (k_execv k _ _); simpl; rewrite ?elem_of_cons, ?elem_of_nil;
    intros H; repeat destruct H as [H|H]; try discriminate; try contradiction;
    now inversion H.
Qed.

(** An execv in the trace of launch_application: the bundle passed the three
    checks, the configurator returned success, and the call is the one of
    line 309. *)
Lemma launch_application_exec_event k p st evs o path argv :
  launch_application k p st = (evs, o) →
  EvExecv path argv ∈ evs →
  bundle_is_valid k p = true
  ∧ path = full_path_of p EXEC_PATH ∧ argv = [full_path_of p EXEC_PATH]
  ∧ ∃ evs_c st_c, configure_library_path k p st = (evs_c, Returns EXIT_SUCCESS st_c)
      ∧ evs = validated_events p ++ evs_c ++ inspect_events k p
                ++ (handoff k p (after_inspect k p st_c)).1
      ∧ o = (handoff k p (after_inspect k p st_c)).2.
Proof.
  intros Hrun Hin.
  destruct (launch_application_cases k p st)
    as [(Hv & evs' & st' & _ & Hl & _ & Hq)
       |[(Hv & evs_c & st_c & Hc & Hq & Hl)|(Hv & evs_c & st_c & Hc & Hq & Hl)]];
    rewrite Hl in Hrun; apply pair_equal_spec in Hrun as [<- <-].
  - now apply quiet_no_exec in Hin.
  - apply elem_of_app in Hin as [Hin|Hin].
    + now apply quiet_no_exec in Hin; [|apply validated_events_quiet].
    + now apply no_exec_event in Hin.
  - split; [exact Hv|].
    assert (EvExecv path argv ∈ (handoff k p (after_inspect k p st_c)).1) as Hh.
    { rewrite !elem_of_app in Hin. destruct Hin as [Hin|[Hin|[Hin|Hin]]]; [| | |exact Hin].
      - now apply quiet_no_exec in Hin; [|apply validated_events_quiet].
      - now apply no_exec_event in Hin.
      - now apply quiet_no_exec in Hin; [|apply inspect_events_quiet]. }
    destruct (handoff_exec_event _ _ _ _ _ Hh) as [-> ->].
    split; [reflexivity|]. split; [reflexivity|]. now exists evs_c, st_c.
Qed.

Lemma strlen_positive s : s ≠ "" → 0 < strlen s.
Proof.
  destruct s as [|c s]; [congruence|]. intros _. unfold strlen. simpl String.length. lia.
Qed.

Lemma strlen_empty : strlen "" = 0.
Proof. reflexivity. Qed.

Lemma library_path_fits k p :
  is_directory k (p +:+ LIB_PATH) = true → full_path_of p LIB_PATH = p +:+ LIB_PATH.
Proof.
  intros H. apply is_directory_length in H. rewrite strlen_app in H.
  apply full_path_of_fits. lia.
Qed.

Lemma exec_path_fits k p :
  is_regular_or_link k (p +:+ EXEC_PATH) = true → full_path_of p EXEC_PATH = p +:+ EXEC_PATH.
Proof.
  intros H. apply is_regular_or_link_length in H. rewrite strlen_app in H.
  apply full_path_of_fits. lia.
Qed.

(** ** The validator on path names that fit the buffer *)

Lemma validate_bundle_result k p st :
  ∃ evs r st',
    validate_bundle k p st = (evs, Returns r st')
    ∧ (r = EXIT_SUCCESS ↔ bundle_is_valid k p = true)
    ∧ (r = EXIT_SUCCESS ∨ r = EXIT_BUNDLE_ERROR)
    ∧ environ st' = environ st.
Proof.
  destruct (bundle_is_valid k p) eqn:Hv.
  - rewrite (validate_bundle_valid _ _ _ Hv). eexists _, _, _.
    split; [reflexivity|]. split; [tauto|]. split; [now left | reflexivity].
  - destruct (validate_bundle_invalid _ _ st Hv) as (evs & st' & -> & Henv & _).
    eexists _, _, _. split; [reflexivity|].
    split; [split; discriminate|]. split; [now right | exact Henv].
Qed.

(** For a bundle path that leaves room for "/exec/base" in the buffer, the
    validator returns success exactly when the three conditions hold. *)
Lemma validate_bundle_short_path k p st :
  strlen p + strlen EXEC_PATH < PATH_MAX →
  ∃ evs r st',
    validate_bundle k p st = (evs, Returns r st')
    ∧ (r = EXIT_SUCCESS ↔
         is_directory k p = true
         ∧ is_regular_or_link k (p +:+ EXEC_PATH) = true
         ∧ is_executable k (p +:+ EXEC_PATH) = true)
    ∧ (r = EXIT_SUCCESS ∨ r = EXIT_BUNDLE_ERROR).
Proof.
  intros Hlen.
  destruct (validate_bundle_result k p st) as (evs & r & st' & Hrun & Hiff & Hr & _).
  exists evs, r, st'. split; [exact Hrun|]. split; [|exact Hr].
  rewrite Hiff. unfold bundle_is_valid. rewrite (full_path_of_fits _ _ Hlen).
  rewrite !andb_true_iff. tauto.
Qed.

(** Whatever the length of the path: a bundle that meets the three
    conditions is accepted. *)
Lemma validate_bundle_complete k p st :
  is_directory k p = true →
  is_regular_or_link k (p +:+ EXEC_PATH) = true →
  is_executable k (p +:+ EXEC_PATH) = true →
  validate_bundle k p st = (validated_events p, Returns EXIT_SUCCESS st).
Proof.
  intros Hd Hf Hx. apply validate_bundle_valid. unfold bundle_is_valid.
  now rewrite (exec_path_fits _ _ Hf), Hd, Hf, Hx.
Qed.

(** The three diagnostics of the validator differ, whatever the paths. *)
Lemma validate_bundle_diagnostics_distinct a b c :
  "Bundle directory not found: " +:+ a ≠ "Required executable not found: " +:+ b
  ∧ "Bundle directory not found: " +:+ a ≠ "Executable lacks execute permissions: " +:+ c
  ∧ "Required executable not found: " +:+ b ≠ "Executable lacks execute permissions: " +:+ c.
Proof.
  repeat split; intros H; vm_compute in H; discriminate H.
Qed.

(** The diagnostic that goes with each failing check. *)
Lemma validate_bundle_diagnostic k p st :
  bundle_is_valid k p = false →
  ∃ evs st',
    validate_bundle k p st = (evs, Returns EXIT_BUNDLE_ERROR st')
    ∧ last evs = Some (EvLog LOG_ERROR
        (if negb (is_directory k p) then "Bundle directory not found: " +:+ p
         else if negb (is_regular_or_link k (full_path_of p EXEC_PATH))
         then "Required executable not found: " +:+ full_path_of p EXEC_PATH
         else "Executable lacks execute permissions: " +:+ full_path_of p EXEC_PATH)).
Proof.
  unfold bundle_is_valid. intros Hv. rewrite validate_bundle_run. cbv zeta.
  destruct (is_directory k p); cbn [negb].
  - destruct (is_regular_or_link k (full_path_of p EXEC_PATH)); cbn [negb].
    + destruct (is_executable k (full_path_of p EXEC_PATH)); [discriminate|].
      eexists _, _. split; reflexivity.
    + eexists _, _. split; reflexivity.
  - eexists _, _. split; [reflexivity|]. apply last_snoc.
Qed.

(** ** The configurator on path names that fit the buffer *)

Lemma configure_library_path_no_library k p st :
  strlen p + strlen LIB_PATH < PATH_MAX →
  is_directory k (p +:+ LIB_PATH) = false →
  ∃ evs st',
    configure_library_path k p st = (evs, Returns EXIT_SUCCESS st')
    ∧ environ st' = environ st
    ∧ Forall (λ e, is_environment_event e = false) evs.
Proof.
  intros Hlen Hdir. rewrite configure_library_path_run. cbv zeta.
  rewrite (full_path_of_fits _ _ Hlen), Hdir.
  eexists _, _. split; [reflexivity|]. split; [apply environ_after_stat|].
  repeat constructor.
Qed.

(** ** The handoff comes after a validation that succeeded *)

Lemma handoff_after_validation k p st evs o path argv :
  launch_application k p st = (evs, o) →
  EvExecv path argv ∈ evs →
  path = full_path_of p EXEC_PATH
  ∧ validate_bundle k p st = (validated_events p, Returns EXIT_SUCCESS st)
  ∧ is_directory k p = true
  ∧ is_regular_or_link k path = true
  ∧ is_executable k path = true
  ∧ ∃ rest, evs = validated_events p ++ rest.
Proof.
  intros Hrun Hin.
  destruct (launch_application_exec_event _ _ _ _ _ _ _ Hrun Hin)
    as (Hv & -> & _ & evs_c & st_c & _ & -> & _).
  split; [reflexivity|]. split; [now apply validate_bundle_valid|].
  unfold bundle_is_valid in Hv. rewrite !andb_true_iff in Hv.
  destruct Hv as [[Hd Hf] Hx]. repeat (split; [assumption|]). eauto.
Qed.

(** For a bundle path that leaves room for "/exec/base" in the buffer, the
    file that is executed is <bundle>/exec/base, and the validator has found
    it to be a file with execute permission. *)
Lemma handoff_after_validation_short_path k p st evs o path argv :
  strlen p + strlen EXEC_PATH < PATH_MAX →
  launch_application k p st = (evs, o) →
  EvExecv path argv ∈ evs →
  path = p +:+ EXEC_PATH
  ∧ validate_bundle k p st = (validated_events p, Returns EXIT_SUCCESS st)
  ∧ is_directory k p = true
  ∧ is_regular_or_link k (p +:+ EXEC_PATH) = true
  ∧ is_executable k (p +:+ EXEC_PATH) = true.
Proof.
  intros Hlen Hrun Hin.
  destruct (handoff_after_validation _ _ _ _ _ _ _ Hrun Hin)
    as (-> & Hv & Hd & Hf & Hx & _).
  rewrite (full_path_of_fits _ _ Hlen) in *. auto.
Qed.

(** ** The configurator with a search path that is set *)

(** When the configurator finds its library directory and succeeds on a
    search path that is not empty, the path of the directory was not cut:
    a cut path fills the buffer, and the length check of line 223 fails. *)
Lemma found_library_path_prepended k p st cur evs st' :
  is_directory k (full_path_of p LIB_PATH) = true →
  environ st !! "LD_LIBRARY_PATH" = Some cur →
  cur ≠ "" →
  configure_library_path k p st = (evs, Returns EXIT_SUCCESS st') →
  full_path_of p LIB_PATH = p +:+ LIB_PATH
  ∧ environ st' !! "LD_LIBRARY_PATH" = Some ((p +:+ LIB_PATH) +:+ ":" +:+ cur)
  ∧ ∀ name, name ≠ "LD_LIBRARY_PATH" → environ st' !! name = environ st !! name.
Proof.
  intros Hdir Hcur Hne Hrun.
  rewrite configure_library_path_run in Hrun. cbv zeta in Hrun.
  rewrite Hdir, Hcur in Hrun. apply strlen_positive in Hne.
  assert (combined_ld_path (full_path_of p LIB_PATH) (Some cur)
          = full_path_of p LIB_PATH +:+ ":" +:+ cur) as Hnew.
  { unfold combined_ld_path. destruct (Z.gtb_spec (strlen cur) 0); [reflexivity | lia]. }
  unfold ld_path_overflows in Hrun. rewrite Hnew in Hrun.
  destruct (Z.gtb_spec (strlen (full_path_of p LIB_PATH +:+ ":" +:+ cur) + 1) MAX_ENV_LENGTH)
    as [Hover|Hfit]; [discriminate|].
  assert (full_path_of p LIB_PATH = p +:+ LIB_PATH) as Hlib.
  { rewrite !strlen_app, strlen_full_path_of in Hfit. change (strlen ":") with 1 in Hfit.
    apply full_path_of_fits. unfold MAX_ENV_LENGTH, PATH_MAX in *. lia. }
  rewrite Hlib in Hrun. split; [exact Hlib|].
  destruct (k_setenv k "LD_LIBRARY_PATH" _); [discriminate|].
  apply pair_equal_spec in Hrun as [_ Hout]. injection Hout as <-.
  split.
  - apply lookup_insert_eq.
  - intros name Hname. now apply lookup_insert_ne.
Qed.

(** * The properties of the specification *)

(** C1: validate_bundle cuts the path of the executable to PATH_MAX - 1
    bytes.  At a bundle path of 4086 bytes, in a bundle that has a program
    exec/bas and no exec/base, the check of "/exec/base" is made on "/exec/bas"
    and the validator returns success. *)
Theorem validate_bundle_accepts_truncated_path :
  strlen long_bundle = 4086
  ∧ full_path_of long_bundle EXEC_PATH = long_bundle +:+ "/exec/bas"
  ∧ is_directory truncated_exec_kernel long_bundle = true
  ∧ k_inode truncated_exec_kernel (long_bundle +:+ EXEC_PATH) = Err ENOENT
  ∧ is_regular_or_link truncated_exec_kernel (long_bundle +:+ EXEC_PATH) = false
  ∧ validate_bundle truncated_exec_kernel long_bundle (fresh_process ∅)
    = (validated_events long_bundle, Returns EXIT_SUCCESS (fresh_process ∅)).
Proof.
  repeat split; vm_compute; reflexivity.
Qed.

(** C2: configure_library_path cuts the path of the library directory to
    PATH_MAX - 1 bytes.  At a bundle path of 4088 bytes, in a bundle that
    has its directory library on disk, the stat is made on librar, which
    does not exist: the configurator returns success and the library search
    path, set to /usr/local/lib, is left as it was; run from main, the
    launcher hands that environment to the new image. *)
Theorem configure_library_path_skips_long_library_path :
  strlen longer_bundle = 4088
  ∧ k_inode library_on_disk_kernel (longer_bundle +:+ LIB_PATH) = Ok mode_directory
  ∧ S_ISDIR mode_directory = true
  ∧ full_path_of longer_bundle LIB_PATH = longer_bundle +:+ "/librar"
  ∧ environ host_process !! "LD_LIBRARY_PATH" = Some "/usr/local/lib"
  ∧ (∃ st',
       (configure_library_path library_on_disk_kernel longer_bundle host_process).2
         = Returns EXIT_SUCCESS st'
       ∧ environ st' !! "LD_LIBRARY_PATH" = Some "/usr/local/lib")
  ∧ (main library_on_disk_kernel ["launcher"; longer_bundle] host_process).2
    = Replaced {| img_path := longer_bundle +:+ "/exec/b";
                  img_argv := [longer_bundle +:+ "/exec/b"];
                  img_environ := environ host_process |}.
Proof.
  repeat split; try (vm_compute; reflexivity).
  eexists. split; vm_compute; reflexivity.
Qed.

(** Where stat finds a directory at <path>/library (its name is then shorter
    than PATH_MAX and the path is not cut) and the library search path is
    set and not empty: once configure_library_path has returned success the
    variable holds the path of the library directory, a colon, and the
    former value, unchanged; no other variable is touched. *)
Theorem library_path_prepended k p st cur evs st' :
  is_directory k (p +:+ LIB_PATH) = true →
  environ st !! "LD_LIBRARY_PATH" = Some cur →
  cur ≠ "" →
  configure_library_path k p st = (evs, Returns EXIT_SUCCESS st') →
  environ st' !! "LD_LIBRARY_PATH" = Some ((p +:+ LIB_PATH) +:+ ":" +:+ cur)
  ∧ ∀ name, name ≠ "LD_LIBRARY_PATH" → environ st' !! name = environ st !! name.
Proof.
  intros Hdir Hcur Hne Hrun.
  rewrite <- (library_path_fits _ _ Hdir) in Hdir.
  now destruct (found_library_path_prepended _ _ _ _ _ _ Hdir Hcur Hne Hrun) as (_ & ? & ?).
Qed.

Lemma library_path_prepended_witness :
  ∃ evs st',
    configure_library_path app_kernel "/tmp/app" host_process = (evs, Returns EXIT_SUCCESS st')
    ∧ environ st' !! "LD_LIBRARY_PATH" = Some "/tmp/app/library:/usr/local/lib"
    ∧ environ st' !! "HOME" = Some "/home/user".
Proof.
  eexists _, _. split; [vm_compute; reflexivity|].
  destruct (library_path_prepended app_kernel "/tmp/app" host_process "/usr/local/lib"
              (configure_library_path app_kernel "/tmp/app" host_process).1
              (fresh_process (<["LD_LIBRARY_PATH" := "/tmp/app/library:/usr/local/lib"]>
                                (environ host_process))))
    as [Hvalue Hframe].
  - vm_compute; reflexivity.
  - vm_compute; reflexivity.
  - discriminate.
  - vm_compute; reflexivity.
  - split; [exact Hvalue|]. rewrite Hframe by discriminate. vm_compute; reflexivity.
Defined.

(** C3: when the validation and the configuration have succeeded,
    launch_application calls execv on the path it stored in exec_path, with
    an argument vector of one element, that same path.  When the call
    succeeds the process becomes that file, with the environment that
    configure_library_path left; when it fails, launch_application logs the
    failure and returns EXIT_EXEC_ERROR (3).  There is no other execv, and
    the process is replaced by an execv only. *)
Theorem handoff_argv_and_environment k p st evs o :
  launch_application k p st = (evs, o) →
  (∀ evs_v st_v evs_c st_c,
     validate_bundle k p st = (evs_v, Returns EXIT_SUCCESS st_v) →
     configure_library_path k p st_v = (evs_c, Returns EXIT_SUCCESS st_c) →
     let exec_path := full_path_of p EXEC_PATH in
     EvExecv exec_path [exec_path] ∈ evs
     ∧ match k_execv k exec_path [exec_path] with
       | None =>
           o = Replaced {| img_path := exec_path; img_argv := [exec_path];
                           img_environ := environ st_c |}
       | Some e =>
           ∃ st', o = Returns EXIT_EXEC_ERROR st'
             ∧ last evs = Some (EvLog LOG_ERROR
                                  ("Failed to execute application: " +:+ k_strerror k e))
       end)
  ∧ (∀ path argv, EvExecv path argv ∈ evs →
       argv = [path]
       ∧ match k_execv k path argv with
         | None =>
             ∃ evs_c st_c,
               configure_library_path k p st = (evs_c, Returns EXIT_SUCCESS st_c)
               ∧ o = Replaced {| img_path := path; img_argv := [path];
                                 img_environ := environ st_c |}
         | Some e =>
             ∃ st', o = Returns EXIT_EXEC_ERROR st'
               ∧ last evs = Some (EvLog LOG_ERROR
                                    ("Failed to execute application: " +:+ k_strerror k e))
         end)
  ∧ (∀ img, o = Replaced img → EvExecv (img_path img) (img_argv img) ∈ evs).
Proof.
  intros Hrun. split; [|split].
  - intros evs_v st_v evs_c st_c Hval Hconf. cbv zeta.
    destruct (bundle_is_valid k p) eqn:Hv.
    2:{ destruct (validate_bundle_invalid _ _ st Hv) as (evs0 & st0 & Hval0 & _).
        rewrite Hval0 in Hval. discriminate Hval. }
    rewrite (validate_bundle_valid _ _ _ Hv) in Hval.
    apply pair_equal_spec in Hval as [_ Hst]. injection Hst as <-.
    rewrite launch_application_run, Hv, Hconf in Hrun.
    change (EXIT_SUCCESS =? EXIT_SUCCESS) with true in Hrun. cbv iota in Hrun.
    apply pair_equal_spec in Hrun as [<- <-].
    unfold handoff. cbv zeta.
    destruct (k_execv k (full_path_of p EXEC_PATH) [full_path_of p EXEC_PATH]) as [e|];
      cbn [fst snd].
    + split.
      * rewrite !elem_of_app. do 3 right. left. rewrite !elem_of_cons. auto.
      * eexists. split; [reflexivity|]. rewrite !app_assoc. apply last_snoc.
    + split.
      * rewrite !elem_of_app. do 3 right. rewrite !elem_of_cons. auto.
      * now rewrite environ_after_inspect.
  - intros path argv Hin.
    destruct (launch_application_exec_event _ _ _ _ _ _ _ Hrun Hin)
      as (_ & -> & -> & evs_c & st_c & Hc & -> & ->).
    split; [reflexivity|]. unfold handoff. cbv zeta.
    destruct (k_execv k (full_path_of p EXEC_PATH) [full_path_of p EXEC_PATH]) as [e|].
    + eexists. split; [reflexivity|]. cbn [fst snd]. rewrite !app_assoc. apply last_snoc.
    + exists evs_c, st_c. split; [exact Hc|]. cbn [fst snd].
      now rewrite environ_after_inspect.
  - intros img ->.
    destruct (launch_application_cases k p st)
      as [(_ & evs' & st' & _ & Hl & _)
         |[(_ & evs_c & st_c & _ & _ & Hl)|(_ & evs_c & st_c & _ & _ & Hl)]];
      rewrite Hl in Hrun; apply pair_equal_spec in Hrun as [<- Ho]; try discriminate.
    revert Ho. unfold handoff. cbv zeta.
    destruct (k_execv k (full_path_of p EXEC_PATH) [full_path_of p EXEC_PATH]);
      cbn [fst snd]; [discriminate|].
    intros [= <-]. cbn [img_path img_argv].
    rewrite !elem_of_app. do 3 right. rewrite !elem_of_cons. auto.
Qed.

Lemma handoff_argv_and_environment_witness :
  (let run := launch_application app_kernel_no_exec "/tmp/app" host_process in
   EvExecv "/tmp/app/exec/base" ["/tmp/app/exec/base"] ∈ run.1
   ∧ ∃ st', run.2 = Returns EXIT_EXEC_ERROR st'
       ∧ last run.1 = Some (EvLog LOG_ERROR "Failed to execute application: error 8"))
  ∧ (let run := launch_application app_kernel "/tmp/app" host_process in
     EvExecv "/tmp/app/exec/base" ["/tmp/app/exec/base"] ∈ run.1
     ∧ run.2 = Replaced {| img_path := "/tmp/app/exec/base";
                           img_argv := ["/tmp/app/exec/base"];
                           img_environ :=
                             <["LD_LIBRARY_PATH" := "/tmp/app/library:/usr/local/lib"]>
                               (environ host_process) |}).
Proof.
  split; intros run.
  - refine (proj1 (handoff_argv_and_environment app_kernel_no_exec "/tmp/app" host_process
                     run.1 run.2 _)
              (validate_bundle app_kernel_no_exec "/tmp/app" host_process).1 host_process
              (configure_library_path app_kernel_no_exec "/tmp/app" host_process).1
              (fresh_process (<["LD_LIBRARY_PATH" := "/tmp/app/library:/usr/local/lib"]>
                                (environ host_process))) _ _);
      vm_compute; reflexivity.
  - refine (proj1 (handoff_argv_and_environment app_kernel "/tmp/app" host_process
                     run.1 run.2 _)
              (validate_bundle app_kernel "/tmp/app" host_process).1 host_process
              (configure_library_path app_kernel "/tmp/app" host_process).1
              (fresh_process (<["LD_LIBRARY_PATH" := "/tmp/app/library:/usr/local/lib"]>
                                (environ host_process))) _ _);
      vm_compute; reflexivity.
Defined.

(** C4: when the bundle path does not denote an existing directory,
    launch_application returns EXIT_BUNDLE_ERROR (2) after one stat (none
    for the empty path) and one error line; the environment is neither read
    nor written. *)
Theorem missing_directory_rejected k p st :
  is_directory k p = false →
  ∃ evs st',
    launch_application k p st = (evs, Returns EXIT_BUNDLE_ERROR st')
    ∧ evs = stat_trace p ++ [EvLog LOG_ERROR ("Bundle directory not found: " +:+ p)]
    ∧ Forall (λ e, is_environment_event e = false) evs
    ∧ environ st' = environ st.
Proof.
  intros Hdir. rewrite launch_application_run.
  unfold bundle_is_valid. rewrite Hdir. cbn [andb].
  rewrite validate_bundle_run. cbv zeta. rewrite Hdir.
  eexists _, _. split; [reflexivity|]. split; [reflexivity|].
  split; [|apply environ_after_stat].
  unfold stat_trace. destruct (strlen p =? 0); repeat constructor.
Qed.

Lemma missing_directory_rejected_witness :
  ∃ evs st',
    launch_application bare_kernel "/tmp/app" host_process
      = (evs, Returns EXIT_BUNDLE_ERROR st')
    ∧ evs = stat_trace "/tmp/app" ++ [EvLog LOG_ERROR ("Bundle directory not found: " +:+ "/tmp/app")]
    ∧ Forall (λ e, is_environment_event e = false) evs
    ∧ environ st' = environ host_process.
Proof.
  apply (missing_directory_rejected bare_kernel "/tmp/app" host_process).
  vm_compute; reflexivity.
Defined.

(** C5: configure_library_path cuts the path of the library directory to
    PATH_MAX - 1 bytes.  At a bundle path of 4088 bytes, in a bundle that
    has a directory librar and no directory library, the library search
    path, which was not set, is set to the path of librar; run from main,
    the launcher hands that environment to the new image. *)
Theorem configure_library_path_sets_truncated_path :
  strlen longer_bundle = 4088
  ∧ full_path_of longer_bundle LIB_PATH = longer_bundle +:+ "/librar"
  ∧ k_inode truncated_library_kernel (longer_bundle +:+ LIB_PATH) = Err ENOENT
  ∧ is_directory truncated_library_kernel (longer_bundle +:+ LIB_PATH) = false
  ∧ environ (fresh_process ∅) !! "LD_LIBRARY_PATH" = None
  ∧ (configure_library_path truncated_library_kernel longer_bundle (fresh_process ∅)).2
    = Returns EXIT_SUCCESS
        (fresh_process (<["LD_LIBRARY_PATH" := longer_bundle +:+ "/librar"]> ∅))
  ∧ (main truncated_library_kernel ["launcher"; longer_bundle] (fresh_process ∅)).2
    = Replaced {| img_path := longer_bundle +:+ "/exec/b";
                  img_argv := [longer_bundle +:+ "/exec/b"];
                  img_environ := <["LD_LIBRARY_PATH" := longer_bundle +:+ "/librar"]> ∅ |}.
Proof.
  repeat split; vm_compute; reflexivity.
Qed.

(** C6: configure_library_path measures the combined search path on the
    path of the library directory as cut to PATH_MAX - 1 bytes.  At a bundle
    path of 4088 bytes, in a bundle that has a directory library and a
    directory librar, with the variable not set: <bundle>/library with its
    terminating byte needs 4097 bytes, more than MAX_ENV_LENGTH, and setenv
    does not fail, yet the configurator returns success, with the variable
    set to the path of librar; run from main, the launcher goes on to the
    handoff. *)
Theorem configure_library_path_accepts_overlong_library_path :
  strlen longer_bundle = 4088
  ∧ k_inode library_and_librar_kernel (longer_bundle +:+ LIB_PATH) = Ok mode_directory
  ∧ environ (fresh_process ∅) !! "LD_LIBRARY_PATH" = None
  ∧ strlen (longer_bundle +:+ LIB_PATH) + 1 = 4097
  ∧ MAX_ENV_LENGTH = 4096
  ∧ (∀ value, k_setenv library_and_librar_kernel "LD_LIBRARY_PATH" value = None)
  ∧ (∃ st',
       (configure_library_path library_and_librar_kernel longer_bundle (fresh_process ∅)).2
         = Returns EXIT_SUCCESS st'
       ∧ environ st' !! "LD_LIBRARY_PATH" = Some (longer_bundle +:+ "/librar"))
  ∧ (main library_and_librar_kernel ["launcher"; longer_bundle] (fresh_process ∅)).2
    = Replaced {| img_path := longer_bundle +:+ "/exec/b";
                  img_argv := [longer_bundle +:+ "/exec/b"];
                  img_environ := <["LD_LIBRARY_PATH" := longer_bundle +:+ "/librar"]> ∅ |}.
Proof.
  repeat split; try (vm_compute; reflexivity).
  eexists. split; vm_compute; reflexivity.
Qed.

(** On the path stored in lib_full_path: once that directory is found,
    configure_library_path returns EXIT_SYSTEM_ERROR (4) exactly when the
    combined search path built from it, with its terminating byte, is longer
    than MAX_ENV_LENGTH or setenv fails, and EXIT_SUCCESS otherwise.  With
    that error launch_application returns 4 too, and no execv has taken
    place. *)
Theorem configure_library_path_system_error k p st :
  let lib := full_path_of p LIB_PATH in
  let new := combined_ld_path lib (environ st !! "LD_LIBRARY_PATH") in
  is_directory k lib = true →
  ∃ evs r st',
    configure_library_path k p st = (evs, Returns r st')
    ∧ (r = EXIT_SYSTEM_ERROR ↔
         strlen new + 1 > MAX_ENV_LENGTH ∨ is_Some (k_setenv k "LD_LIBRARY_PATH" new))
    ∧ (r = EXIT_SUCCESS ∨ r = EXIT_SYSTEM_ERROR)
    ∧ (r = EXIT_SYSTEM_ERROR → bundle_is_valid k p = true →
         launch_application k p st
           = (validated_events p ++ evs, Returns EXIT_SYSTEM_ERROR st')
         ∧ Forall (λ e, is_exec_event e = false) (validated_events p ++ evs)).
Proof.
  intros lib new Hdir.
  pose proof (configure_library_path_run k p st) as Hrun. cbv zeta in Hrun.
  fold lib in Hrun. fold new in Hrun. rewrite Hdir in Hrun.
  assert (∀ evs st', configure_library_path k p st = (evs, Returns EXIT_SYSTEM_ERROR st') →
            Forall (λ e, is_exec_event e = false) evs →
            bundle_is_valid k p = true →
            launch_application k p st
              = (validated_events p ++ evs, Returns EXIT_SYSTEM_ERROR st')
            ∧ Forall (λ e, is_exec_event e = false) (validated_events p ++ evs)) as Hlaunch.
  { intros evs st' Hc Hq Hv. rewrite launch_application_run, Hv, Hc.
    split; [reflexivity|]. apply Forall_app. split; [|exact Hq].
    eapply Forall_impl; [apply validated_events_quiet|]. now intros e [He _]. }
  unfold ld_path_overflows in Hrun. fold new in Hrun.
  destruct (Z.gtb_spec (strlen new + 1) MAX_ENV_LENGTH) as [Hover|Hfit].
  - eexists _, _, _. split; [exact Hrun|]. split; [|split; [now right|]].
    + split; [intros _; left; lia | reflexivity].
    + intros _. apply Hlaunch; [exact Hrun | repeat constructor].
  - destruct (k_setenv k "LD_LIBRARY_PATH" new) as [e|] eqn:Hset.
    + eexists _, _, _. split; [exact Hrun|]. split; [|split; [now right|]].
      * split; [intros _; right; now exists e | reflexivity].
      * intros _. apply Hlaunch; [exact Hrun | repeat constructor].
    + eexists _, _, _. split; [exact Hrun|]. split; [|split; [now left|discriminate]].
      split; [discriminate|]. intros [Hover|[e He]]; [lia | discriminate].
Qed.

Lemma configure_library_path_system_error_witness :
  ∃ evs st',
    configure_library_path app_kernel_no_setenv "/tmp/app" host_process
      = (evs, Returns EXIT_SYSTEM_ERROR st')
    ∧ launch_application app_kernel_no_setenv "/tmp/app" host_process
      = (validated_events "/tmp/app" ++ evs, Returns EXIT_SYSTEM_ERROR st').
Proof.
  destruct (configure_library_path_system_error app_kernel_no_setenv "/tmp/app" host_process)
    as (evs & r & st' & Hrun & Hiff & _ & Hlaunch).
  - vm_compute; reflexivity.
  - assert (r = EXIT_SYSTEM_ERROR) as Hr.
    { apply Hiff. right. vm_compute. eexists. reflexivity. }
    exists evs, st'. rewrite Hrun, Hr. split; [reflexivity|].
    apply Hlaunch; [exact Hr | vm_compute; reflexivity].
Defined.

(** C7: with an argument count other than two (no positional argument, or
    two and more), main logs the error, prints the usage text (the eighteen
    texts below, with argv[0] as the name of the program) and returns
    EXIT_INVALID_ARGS (1); it calls neither stat, nor access, nor execv. *)
Theorem usage_on_wrong_argument_count k argv st :
  length argv ≠ 2%nat →
  ∃ evs,
    main k argv st = (evs, Returns EXIT_INVALID_ARGS st)
    ∧ printf_texts evs =
        [ "Application Launcher v1.0.0" +:+ newline;
          "A professional application bundle launcher for Linux systems."
            +:+ newline +:+ newline;
          "Usage: " +:+ default "(null)" (argv !! 0%nat) +:+ " <bundle_path>"
            +:+ newline +:+ newline;
          "Arguments:" +:+ newline;
          "  bundle_path    Path to the application bundle directory" +:+ newline +:+ newline;
          "Expected Bundle Structure:" +:+ newline;
          "  bundle_path/" +:+ newline;
          "  ├── exec/base          (Required executable)" +:+ newline;
          "  ├── library/           (Optional shared libraries)" +:+ newline;
          "  ├── resources/         (Optional resource files)" +:+ newline;
          "  ├── info.yaml          (Optional metadata)" +:+ newline;
          "  └── icon.png           (Optional application icon)" +:+ newline +:+ newline;
          "Exit Codes:" +:+ newline;
          "  0  Success" +:+ newline;
          "  1  Invalid arguments" +:+ newline;
          "  2  Bundle validation error" +:+ newline;
          "  3  Application execution error" +:+ newline;
          "  4  System error" +:+ newline ]
    ∧ (∀ line, line ∈ usage_text (show_string (argv !! 0%nat)) → EvPrintf line ∈ evs)
    ∧ Forall (λ e, is_filesystem_event e = false) evs.
Proof.
  intros Hn. rewrite (main_wrong_count_run _ _ _ Hn).
  eexists. split; [reflexivity|]. split; [reflexivity|]. split.
  - intros line Hline. apply elem_of_cons. right. now apply list_elem_of_fmap_2.
  - constructor; [reflexivity|]. apply Forall_fmap, Forall_true. now intros line.
Qed.

Lemma usage_on_wrong_argument_count_witness :
  ∃ evs,
    main bare_kernel ["launcher"] host_process = (evs, Returns EXIT_INVALID_ARGS host_process)
    ∧ EvPrintf ("Usage: launcher <bundle_path>" +:+ newline +:+ newline) ∈ evs
    ∧ length (printf_texts evs) = 18%nat
    ∧ Forall (λ e, is_filesystem_event e = false) evs.
Proof.
  destruct (usage_on_wrong_argument_count bare_kernel ["launcher"] host_process)
    as (evs & Hrun & Htexts & Hin & Hfs).
  - simpl. lia.
  - exists evs. split; [exact Hrun|]. split; [|split; [|exact Hfs]].
    + apply Hin. apply list_elem_of_In. vm_compute. do 2 right. left. reflexivity.
    + now rewrite Htexts.
Defined.

(** C8: launch_application cuts the path of the executable as the validator
    does.  At a bundle path of 4086 bytes, in a bundle that has a program
    exec/bas and no exec/base, the validation succeeds and the process is
    replaced by exec/bas; so it is when the launcher is run from main. *)
Theorem launch_application_runs_truncated_path :
  strlen long_bundle = 4086
  ∧ is_regular_or_link truncated_exec_kernel (long_bundle +:+ EXEC_PATH) = false
  ∧ is_executable truncated_exec_kernel (long_bundle +:+ EXEC_PATH) = false
  ∧ (launch_application truncated_exec_kernel long_bundle (fresh_process ∅)).2
    = Replaced {| img_path := long_bundle +:+ "/exec/bas";
                  img_argv := [long_bundle +:+ "/exec/bas"];
                  img_environ := ∅ |}
  ∧ last (launch_application truncated_exec_kernel long_bundle (fresh_process ∅)).1
    = Some (EvExecv (long_bundle +:+ "/exec/bas") [long_bundle +:+ "/exec/bas"])
  ∧ (main truncated_exec_kernel ["launcher"; long_bundle] (fresh_process ∅)).2
    = Replaced {| img_path := long_bundle +:+ "/exec/bas";
                  img_argv := [long_bundle +:+ "/exec/bas"];
                  img_environ := ∅ |}.
Proof.
  repeat split; vm_compute; reflexivity.
Qed.

(** C9: a single argument of PATH_MAX bytes or more makes main return
    EXIT_INVALID_ARGS (1) after one error line; nothing is validated and the
    file system is not consulted. *)
Theorem long_bundle_path_rejected k prog p st :
  PATH_MAX ≤ strlen p →
  ∃ evs,
    main k [prog; p] st = (evs, Returns EXIT_INVALID_ARGS st)
    ∧ evs = [EvLog LOG_ERROR "Bundle path too long (max 4095 characters)"]
    ∧ Forall (λ e, is_filesystem_event e = false) evs.
Proof.
  intros Hlen. rewrite main_too_long_run by (unfold MAX_PATH_LENGTH; lia).
  eexists. split; [reflexivity|]. split; [reflexivity|]. repeat constructor.
Qed.

Lemma long_bundle_path_rejected_witness :
  ∃ evs,
    main app_kernel ["launcher"; deep_bundle 2044] host_process
      = (evs, Returns EXIT_INVALID_ARGS host_process)
    ∧ evs = [EvLog LOG_ERROR "Bundle path too long (max 4095 characters)"]
    ∧ Forall (λ e, is_filesystem_event e = false) evs.
Proof.
  apply (long_bundle_path_rejected app_kernel "launcher" (deep_bundle 2044) host_process).
  apply Z.leb_le. vm_compute. reflexivity.
Defined.

(** C10: configure_library_path cuts the path of the library directory to
    PATH_MAX - 1 bytes.  At a bundle path of 4088 bytes, with the library
    search path set to the empty string: in a bundle that has a directory
    library and a directory librar the variable is set to the path of
    librar, and in a bundle that has the directory library alone it stays
    empty; in neither is it the path of the library directory. *)
Theorem configure_library_path_empty_value_long_path :
  strlen longer_bundle = 4088
  ∧ k_inode library_and_librar_kernel (longer_bundle +:+ LIB_PATH) = Ok mode_directory
  ∧ k_inode library_on_disk_kernel (longer_bundle +:+ LIB_PATH) = Ok mode_directory
  ∧ environ empty_path_process !! "LD_LIBRARY_PATH" = Some ""
  ∧ longer_bundle +:+ "/librar" ≠ longer_bundle +:+ LIB_PATH
  ∧ (∃ st',
       (configure_library_path library_and_librar_kernel longer_bundle empty_path_process).2
         = Returns EXIT_SUCCESS st'
       ∧ environ st' !! "LD_LIBRARY_PATH" = Some (longer_bundle +:+ "/librar"))
  ∧ (∃ st',
       (configure_library_path library_on_disk_kernel longer_bundle empty_path_process).2
         = Returns EXIT_SUCCESS st'
       ∧ environ st' !! "LD_LIBRARY_PATH" = Some "").
Proof.
  repeat split; try (vm_compute; reflexivity).
  - intros H. apply (f_equal strlen) in H. vm_compute in H. discriminate H.
  - eexists. split; vm_compute; reflexivity.
  - eexists. split; vm_compute; reflexivity.
Qed.

(** Where stat finds a directory at <path>/library (its name is then shorter
    than PATH_MAX and the path is not cut): when the library search path is
    set to the empty string, configure_library_path sets it to the path of
    the library directory alone, exactly as it does when the variable is
    not set at all. *)
Theorem empty_library_path_as_absent k p st :
  is_directory k (p +:+ LIB_PATH) = true →
  environ st !! "LD_LIBRARY_PATH" = Some "" →
  k_setenv k "LD_LIBRARY_PATH" (p +:+ LIB_PATH) = None →
  ∃ evs st',
    configure_library_path k p st = (evs, Returns EXIT_SUCCESS st')
    ∧ environ st' !! "LD_LIBRARY_PATH" = Some (p +:+ LIB_PATH)
    ∧ configure_library_path k p (set_environ (delete "LD_LIBRARY_PATH" (environ st)) st)
      = (evs, Returns EXIT_SUCCESS st').
Proof.
  intros Hdir Hcur Hset.
  rewrite !configure_library_path_run. cbv zeta.
  rewrite (library_path_fits _ _ Hdir), Hdir.
  cbn [environ set_environ]. rewrite Hcur, lookup_delete_eq.
  unfold ld_path_overflows.
  change (combined_ld_path (p +:+ LIB_PATH) (Some "")) with (p +:+ LIB_PATH).
  change (combined_ld_path (p +:+ LIB_PATH) None) with (p +:+ LIB_PATH).
  pose proof (is_directory_length _ _ Hdir) as Hlen.
  destruct (Z.gtb_spec (strlen (p +:+ LIB_PATH) + 1) MAX_ENV_LENGTH) as [Hover|Hfit];
    [unfold MAX_ENV_LENGTH, PATH_MAX in *; lia|].
  rewrite Hset. eexists _, _. split; [reflexivity|]. split.
  - apply lookup_insert_eq.
  - unfold set_environ. cbn [environ errno]. now rewrite insert_delete_eq.
Qed.

Lemma empty_library_path_as_absent_witness :
  ∃ evs st',
    configure_library_path app_kernel "/tmp/app" empty_path_process
      = (evs, Returns EXIT_SUCCESS st')
    ∧ environ st' !! "LD_LIBRARY_PATH" = Some ("/tmp/app" +:+ LIB_PATH)
    ∧ configure_library_path app_kernel "/tmp/app"
        (set_environ (delete "LD_LIBRARY_PATH" (environ empty_path_process)) empty_path_process)
      = (evs, Returns EXIT_SUCCESS st').
Proof.
  apply (empty_library_path_as_absent app_kernel "/tmp/app" empty_path_process).
  - vm_compute; reflexivity.
  - vm_compute; reflexivity.
  - reflexivity.
Defined.

(** * Further properties of the launcher *)

(** ** Helpers *)

Lemma mode_directory_not_file mode :
  S_ISDIR mode = true → S_ISREG mode || S_ISLNK mode = false.
Proof.
  unfold S_ISDIR, S_ISREG, S_ISLNK. intros H. apply Z.eqb_eq in H. now rewrite H.
Qed.

Lemma strlen_zero_empty s : strlen s = 0 → s = "".
Proof.
  destruct s as [|c s]; [reflexivity|]. unfold strlen. simpl String.length. lia.
Qed.

Lemma full_path_of_positive p suffix : 0 < strlen suffix → 0 < strlen (full_path_of p suffix).
Proof.
  intros H. rewrite strlen_full_path_of. pose proof (strlen_nonneg p).
  unfold PATH_MAX. lia.
Qed.


(** What configure_library_path does to the environment: it inserts the
    combined value, or it leaves the environment as it was. *)
Lemma configure_library_path_effect k p st :
  let lib := full_path_of p LIB_PATH in
  let new := combined_ld_path lib (environ st !! "LD_LIBRARY_PATH") in
  ∃ evs r st',
    configure_library_path k p st = (evs, Returns r st')
    ∧ ((r = EXIT_SUCCESS ∧ is_directory k lib = true
        ∧ ld_path_overflows lib (environ st !! "LD_LIBRARY_PATH") = false
        ∧ environ st' = <["LD_LIBRARY_PATH" := new]> (environ st))
       ∨ (r = EXIT_SUCCESS ∧ is_directory k lib = false ∧ environ st' = environ st)
       ∨ (r = EXIT_SYSTEM_ERROR ∧ is_directory k lib = true ∧ environ st' = environ st)).
Proof.
  intros lib new. rewrite configure_library_path_run. cbv zeta. fold lib. fold new.
  destruct (is_directory k lib).
  - destruct (ld_path_overflows lib _).
    + eexists _, _, _. split; [reflexivity|]. right. right. auto.
    + destruct (k_setenv k "LD_LIBRARY_PATH" new).
      * eexists _, _, _. split; [reflexivity|]. right. right. auto.
      * eexists _, _, _. split; [reflexivity|]. left. auto.
  - eexists _, _, _. split; [reflexivity|]. right. left.
    split; [reflexivity|]. split; [reflexivity|]. apply environ_after_stat.
Qed.

(** ** validate_bundle, file_exists and directory_exists *)


(** X2: validate_bundle succeeds exactly when its three checks pass on the
    bundle path and on the path it stored in full_path (the text
    bundle_path/exec/base cut to PATH_MAX - 1 bytes); otherwise it returns
    EXIT_BUNDLE_ERROR and its last event is the error line of the first
    check that failed. *)
Theorem validate_bundle_verdict k p st :
  let full_path := full_path_of p EXEC_PATH in
  ∃ evs r st',
    validate_bundle k p st = (evs, Returns r st')
    ∧ (r = EXIT_SUCCESS ↔
         is_directory k p = true
         ∧ is_regular_or_link k full_path = true
         ∧ is_executable k full_path = true)
    ∧ (r ≠ EXIT_SUCCESS →
         r = EXIT_BUNDLE_ERROR
         ∧ last evs = Some (EvLog LOG_ERROR
             (if negb (is_directory k p) then "Bundle directory not found: " +:+ p
              else if negb (is_regular_or_link k full_path)
              then "Required executable not found: " +:+ full_path
              else "Executable lacks execute permissions: " +:+ full_path))).
Proof.
  intros full_path. subst full_path.
  destruct (bundle_is_valid k p) eqn:Hv.
  - rewrite (validate_bundle_valid _ _ _ Hv). eexists _, _, _.
    split; [reflexivity|]. split; [|congruence].
    unfold bundle_is_valid in Hv. rewrite !andb_true_iff in Hv. tauto.
  - destruct (validate_bundle_diagnostic _ _ st Hv) as (evs & st' & -> & Hlast).
    eexists _, _, _. split; [reflexivity|]. split; [|auto].
    split; [discriminate|]. intros (Hd & Hf & Hx).
    unfold bundle_is_valid in Hv. now rewrite Hd, Hf, Hx in Hv.
Qed.

(** X3: validate_bundle calls access only on the path it stored in
    full_path, with X_OK, and only after stat has shown the bundle to be a
    directory and that path to be a file. *)
Theorem validate_bundle_access_after_stat k p st evs o path mode :
  validate_bundle k p st = (evs, o) →
  EvAccess path mode ∈ evs →
  path = full_path_of p EXEC_PATH ∧ mode = X_OK
  ∧ is_directory k p = true
  ∧ is_regular_or_link k path = true.
Proof.
  rewrite validate_bundle_run. cbv zeta. intros Hrun Hin.
  destruct (is_directory k p) eqn:Hd.
  - destruct (is_regular_or_link k (full_path_of p EXEC_PATH)) eqn:Hf.
    + assert (EvAccess path mode = EvAccess (full_path_of p EXEC_PATH) X_OK) as Heq.
      { destruct (is_executable k (full_path_of p EXEC_PATH));
          apply pair_equal_spec in Hrun as [<- _];
          rewrite !elem_of_cons, elem_of_nil in Hin;
          destruct Hin as [H|[H|[H|[H|[]]]]]; try discriminate H; exact H. }
      injection Heq as -> ->. auto.
    + apply pair_equal_spec in Hrun as [<- _].
      rewrite !elem_of_cons, elem_of_nil in Hin.
      destruct Hin as [H|[H|[H|[]]]]; discriminate H.
  - apply pair_equal_spec in Hrun as [<- _].
    unfold stat_trace in Hin. destruct (strlen p =? 0);
      cbn [app] in Hin; rewrite ?elem_of_cons, elem_of_nil in Hin;
      repeat destruct Hin as [Hin|Hin]; try discriminate Hin; contradiction.
Qed.

Lemma validate_bundle_access_after_stat_witness :
  "/tmp/app/exec/base" = full_path_of "/tmp/app" EXEC_PATH ∧ X_OK = X_OK
  ∧ is_directory app_kernel "/tmp/app" = true
  ∧ is_regular_or_link app_kernel "/tmp/app/exec/base" = true.
Proof.
  apply (validate_bundle_access_after_stat app_kernel "/tmp/app" host_process
           (validate_bundle app_kernel "/tmp/app" host_process).1
           (validate_bundle app_kernel "/tmp/app" host_process).2).
  - vm_compute; reflexivity.
  - apply list_elem_of_In. vm_compute. do 2 right. left. reflexivity.
Defined.

(** X4: on one path, directory_exists and file_exists make the same single
    stat call (none at all for the empty path, for which both answer no),
    they never both answer yes, and they leave the environment alone. *)
Theorem file_and_directory_exclusive k path st :
  ∃ evs d f st1 st2,
    directory_exists k path st = (evs, Returns d st1)
    ∧ file_exists k path st = (evs, Returns f st2)
    ∧ (d = true → f = false)
    ∧ (path = "" → evs = [] ∧ d = false ∧ f = false)
    ∧ (path ≠ "" → evs = [EvStat path])
    ∧ environ st1 = environ st ∧ environ st2 = environ st.
Proof.
  rewrite directory_exists_run, file_exists_run.
  eexists _, _, _, _, _. split; [reflexivity|]. split; [reflexivity|].
  split; [|split; [|split; [|split; apply environ_after_stat]]].
  - unfold is_directory, is_regular_or_link. destruct (sys_stat k path); [|discriminate].
    apply mode_directory_not_file.
  - intros ->. repeat split.
  - intros Hne. apply strlen_positive in Hne. unfold stat_trace.
    destruct (Z.eqb_spec (strlen path) 0); [lia | reflexivity].
Qed.

(** ** configure_library_path *)

(** X5: when the path stored in lib_full_path is not a directory,
    configure_library_path logs a warning, not an error, and returns
    EXIT_SUCCESS after that one stat: the environment is not even read. *)
Theorem configure_library_path_without_directory k p st :
  let lib := full_path_of p LIB_PATH in
  is_directory k lib = false →
  ∃ st',
    configure_library_path k p st
      = ([EvStat lib; EvLog LOG_WARNING ("Library directory not found: " +:+ lib)],
         Returns EXIT_SUCCESS st')
    ∧ environ st' = environ st.
Proof.
  intros lib Hdir. rewrite configure_library_path_run. cbv zeta. fold lib.
  rewrite Hdir. eexists. split; [reflexivity | apply environ_after_stat].
Qed.

Lemma configure_library_path_without_directory_witness :
  ∃ st',
    configure_library_path plain_app_kernel "/tmp/app" host_process
      = ([EvStat "/tmp/app/library";
          EvLog LOG_WARNING "Library directory not found: /tmp/app/library"],
         Returns EXIT_SUCCESS st')
    ∧ environ st' = environ host_process.
Proof.
  apply (configure_library_path_without_directory plain_app_kernel "/tmp/app" host_process).
  vm_compute; reflexivity.
Defined.

(** X6: configure_library_path always returns, with EXIT_SUCCESS or
    EXIT_SYSTEM_ERROR; it never calls execv; whatever the result, every
    variable other than LD_LIBRARY_PATH keeps its value, and when the
    result is EXIT_SYSTEM_ERROR the environment is exactly as it was. *)
Theorem configure_library_path_frame k p st :
  ∃ evs r st',
    configure_library_path k p st = (evs, Returns r st')
    ∧ (r = EXIT_SUCCESS ∨ r = EXIT_SYSTEM_ERROR)
    ∧ Forall (λ e, is_exec_event e = false) evs
    ∧ (∀ name, name ≠ "LD_LIBRARY_PATH" → environ st' !! name = environ st !! name)
    ∧ (r = EXIT_SYSTEM_ERROR → environ st' = environ st).
Proof.
  destruct (configure_library_path_outcome k p st) as (evs & r & st' & Hrun & Hr & Hq).
  exists evs, r, st'. split; [exact Hrun|]. split; [exact Hr|]. split; [exact Hq|].
  destruct (configure_library_path_effect k p st)
    as (evs0 & r0 & st0 & Hrun0 & Heff).
  rewrite Hrun in Hrun0. apply pair_equal_spec in Hrun0 as [_ Hout].
  injection Hout as <- <-.
  destruct Heff as [(-> & _ & _ & Henv)|[(-> & _ & Henv)|(-> & _ & Henv)]]; rewrite Henv.
  - split; [|discriminate]. intros name Hname. now apply lookup_insert_ne.
  - split; [reflexivity|discriminate].
  - split; reflexivity.
Qed.

(** X7: the value configure_library_path hands to setenv is never cut: it
    is the whole combined string (the library path alone, or the library
    path, a colon and the former value), it is shorter than MAX_ENV_LENGTH,
    the variable is LD_LIBRARY_PATH and the overwrite flag is 1; and setenv
    is called only once the library directory was found. *)
Theorem configure_library_path_setenv_argument k p st evs o name value overwrite :
  configure_library_path k p st = (evs, o) →
  EvSetenv name value overwrite ∈ evs →
  name = "LD_LIBRARY_PATH" ∧ overwrite = 1
  ∧ value = combined_ld_path (full_path_of p LIB_PATH) (environ st !! "LD_LIBRARY_PATH")
  ∧ strlen value < MAX_ENV_LENGTH
  ∧ is_directory k (full_path_of p LIB_PATH) = true.
Proof.
  rewrite configure_library_path_run. cbv zeta. intros Hrun Hin.
  set (lib := full_path_of p LIB_PATH) in *.
  set (new := combined_ld_path lib (environ st !! "LD_LIBRARY_PATH")) in *.
  destruct (is_directory k lib) eqn:Hd.
  - unfold ld_path_overflows in Hrun. fold new in Hrun.
    destruct (Z.gtb_spec (strlen new + 1) MAX_ENV_LENGTH) as [Hover|Hfit].
    + apply pair_equal_spec in Hrun as [<- _].
      rewrite !elem_of_cons, elem_of_nil in Hin.
      destruct Hin as [H|[H|[H|[]]]]; discriminate H.
    + assert (EvSetenv name value overwrite = EvSetenv "LD_LIBRARY_PATH" new 1) as Heq.
      { destruct (k_setenv k "LD_LIBRARY_PATH" new);
          apply pair_equal_spec in Hrun as [<- _];
          rewrite !elem_of_cons, elem_of_nil in Hin;
          repeat destruct Hin as [Hin|Hin]; try discriminate Hin;
          try contradiction; exact Hin. }
      injection Heq as -> -> ->. repeat split; [lia].
  - apply pair_equal_spec in Hrun as [<- _].
    rewrite !elem_of_cons, elem_of_nil in Hin.
    destruct Hin as [H|[H|[]]]; discriminate H.
Qed.

Lemma configure_library_path_setenv_argument_witness :
  "LD_LIBRARY_PATH" = "LD_LIBRARY_PATH" ∧ 1 = 1
  ∧ "/tmp/app/library:/usr/local/lib"
    = combined_ld_path (full_path_of "/tmp/app" LIB_PATH)
        (environ host_process !! "LD_LIBRARY_PATH")
  ∧ strlen "/tmp/app/library:/usr/local/lib" < MAX_ENV_LENGTH
  ∧ is_directory app_kernel (full_path_of "/tmp/app" LIB_PATH) = true.
Proof.
  apply (configure_library_path_setenv_argument app_kernel "/tmp/app" host_process
           (configure_library_path app_kernel "/tmp/app" host_process).1
           (configure_library_path app_kernel "/tmp/app" host_process).2).
  - vm_compute; reflexivity.
  - apply list_elem_of_In. vm_compute. do 2 right. left. reflexivity.
Defined.

(** X8: configure_library_path is not idempotent.  When the library
    directory is found and two runs in a row succeed, the second run puts
    the library path in front of the value the first run has set, so the
    directory is listed twice. *)
Theorem configure_library_path_twice k p st evs1 st1 evs2 st2 :
  let lib := full_path_of p LIB_PATH in
  is_directory k lib = true →
  configure_library_path k p st = (evs1, Returns EXIT_SUCCESS st1) →
  configure_library_path k p st1 = (evs2, Returns EXIT_SUCCESS st2) →
  let first := combined_ld_path lib (environ st !! "LD_LIBRARY_PATH") in
  environ st1 !! "LD_LIBRARY_PATH" = Some first
  ∧ environ st2 !! "LD_LIBRARY_PATH" = Some (lib +:+ ":" +:+ first).
Proof.
  intros lib Hdir Hrun1 Hrun2 first.
  assert (∀ s s' evs, configure_library_path k p s = (evs, Returns EXIT_SUCCESS s') →
            environ s' !! "LD_LIBRARY_PATH"
            = Some (combined_ld_path lib (environ s !! "LD_LIBRARY_PATH"))) as Hset.
  { intros s s' evs Hrun. rewrite configure_library_path_run in Hrun. cbv zeta in Hrun.
    fold lib in Hrun. rewrite Hdir in Hrun.
    destruct (ld_path_overflows lib _); [discriminate|].
    destruct (k_setenv k "LD_LIBRARY_PATH" _); [discriminate|].
    apply pair_equal_spec in Hrun as [_ Hout]. injection Hout as <-.
    apply lookup_insert_eq. }
  pose proof (Hset _ _ _ Hrun1) as H1. fold first in H1.
  split; [exact H1|].
  rewrite (Hset _ _ _ Hrun2), H1. f_equal.
  assert (0 < strlen first) as Hpos.
  { pose proof (full_path_of_positive p LIB_PATH eq_refl) as Hlib. fold lib in Hlib.
    subst first. unfold combined_ld_path.
    destruct (environ st !! "LD_LIBRARY_PATH") as [cur|]; [|exact Hlib].
    destruct (strlen cur >? 0); [|exact Hlib].
    rewrite !strlen_app. pose proof (strlen_nonneg cur). change (strlen ":") with 1. lia. }
  unfold combined_ld_path at 1.
  destruct (Z.gtb_spec (strlen first) 0); [reflexivity | lia].
Qed.

Lemma configure_library_path_twice_witness :
  environ (fresh_process (<["LD_LIBRARY_PATH" := "/tmp/app/library:/usr/local/lib"]>
                            (environ host_process))) !! "LD_LIBRARY_PATH"
  = Some (combined_ld_path (full_path_of "/tmp/app" LIB_PATH)
            (environ host_process !! "LD_LIBRARY_PATH"))
  ∧ environ (fresh_process
               (<["LD_LIBRARY_PATH" := "/tmp/app/library:/tmp/app/library:/usr/local/lib"]>
                  (environ host_process))) !! "LD_LIBRARY_PATH"
    = Some (full_path_of "/tmp/app" LIB_PATH +:+ ":"
            +:+ combined_ld_path (full_path_of "/tmp/app" LIB_PATH)
                  (environ host_process !! "LD_LIBRARY_PATH")).
Proof.
  apply (configure_library_path_twice app_kernel "/tmp/app" host_process
           (configure_library_path app_kernel "/tmp/app" host_process).1
           (fresh_process (<["LD_LIBRARY_PATH" := "/tmp/app/library:/usr/local/lib"]>
                             (environ host_process)))
           (configure_library_path app_kernel "/tmp/app"
              (fresh_process (<["LD_LIBRARY_PATH" := "/tmp/app/library:/usr/local/lib"]>
                                (environ host_process)))).1
           (fresh_process
              (<["LD_LIBRARY_PATH" := "/tmp/app/library:/tmp/app/library:/usr/local/lib"]>
                 (environ host_process)))).
  - vm_compute; reflexivity.
  - vm_compute; reflexivity.
  - vm_compute; reflexivity.
Defined.

(** ** inspect_optional_components *)

(** X9: inspect_optional_components only looks: it always returns, makes
    exactly three stat calls, on the paths it stored for info.yaml, icon.png
    and resources, in that order, logs at the levels INFO and DEBUG only,
    and leaves the environment as it was. *)
Theorem inspect_optional_components_only_observes k p st :
  ∃ evs st',
    inspect_optional_components k p st = (evs, Returns () st')
    ∧ stat_paths evs
      = [full_path_of p METADATA_PATH; full_path_of p ICON_PATH; full_path_of p RES_PATH]
    ∧ Forall is_informational evs
    ∧ environ st' = environ st.
Proof.
  rewrite inspect_optional_components_run. eexists _, _. split; [reflexivity|].
  unfold inspect_events.
  split; [|split; [|apply environ_after_inspect]];
    destruct (is_regular_or_link k (full_path_of p METADATA_PATH)),
      (is_regular_or_link k (full_path_of p ICON_PATH)),
      (is_directory k (full_path_of p RES_PATH)); try reflexivity;
    repeat constructor.
Qed.

(** ** launch_application *)

Lemma configure_library_path_error_line k p st evs st' :
  configure_library_path k p st = (evs, Returns EXIT_SYSTEM_ERROR st') →
  ∃ msg, last evs = Some (EvLog LOG_ERROR msg).
Proof.
  rewrite configure_library_path_run. cbv zeta. intros Hrun.
  destruct (is_directory k (full_path_of p LIB_PATH)); [|discriminate].
  destruct (ld_path_overflows _ _).
  - apply pair_equal_spec in Hrun as [<- _]. eexists. reflexivity.
  - destruct (k_setenv k "LD_LIBRARY_PATH" _); [|discriminate].
    apply pair_equal_spec in Hrun as [<- _]. eexists. reflexivity.
Qed.

Lemma last_app_some {A} (l1 l2 : list A) x : last l2 = Some x → last (l1 ++ l2) = Some x.
Proof.
  intros H. destruct l2 as [|y l2]; [discriminate|].
  rewrite last_app. now rewrite H.
Qed.

(** X10: launch_application never returns EXIT_SUCCESS.  When it returns
    at all, the result is EXIT_BUNDLE_ERROR, EXIT_EXEC_ERROR or
    EXIT_SYSTEM_ERROR, and the last thing it did was to log an error. *)
Theorem launch_application_returns_error k p st evs r st' :
  launch_application k p st = (evs, Returns r st') →
  (r = EXIT_BUNDLE_ERROR ∨ r = EXIT_EXEC_ERROR ∨ r = EXIT_SYSTEM_ERROR)
  ∧ ∃ msg, last evs = Some (EvLog LOG_ERROR msg).
Proof.
  intros Hrun.
  destruct (launch_application_cases k p st)
    as [(Hv & evs' & st0 & Hval & Hl & _)
       |[(_ & evs_c & st_c & Hc & _ & Hl)|(_ & evs_c & st_c & _ & _ & Hl)]];
    rewrite Hl in Hrun; apply pair_equal_spec in Hrun as [<- Ho].
  - injection Ho as <- <-. split; [now left|].
    destruct (validate_bundle_diagnostic _ _ st Hv) as (evs0 & st1 & Hval' & Hlast).
    rewrite Hval in Hval'. apply pair_equal_spec in Hval' as [-> _]. eauto.
  - injection Ho as <- <-. split; [now right; right|].
    destruct (configure_library_path_error_line _ _ _ _ _ Hc) as [msg Hlast].
    exists msg. now apply last_app_some.
  - revert Ho. unfold handoff. cbv zeta.
    destruct (k_execv k (full_path_of p EXEC_PATH) [full_path_of p EXEC_PATH]);
      cbn [fst snd]; [|discriminate].
    intros [= <- <-]. split; [now right; left|].
    eexists. rewrite !app_assoc. apply last_snoc.
Qed.

Lemma launch_application_returns_error_witness :
  (EXIT_EXEC_ERROR = EXIT_BUNDLE_ERROR ∨ EXIT_EXEC_ERROR = EXIT_EXEC_ERROR
   ∨ EXIT_EXEC_ERROR = EXIT_SYSTEM_ERROR)
  ∧ ∃ msg, last (launch_application app_kernel_no_exec "/tmp/app" host_process).1
           = Some (EvLog LOG_ERROR msg).
Proof.
  apply (launch_application_returns_error app_kernel_no_exec "/tmp/app" host_process _ _
           (set_errno ENOEXEC
              (fresh_process (<["LD_LIBRARY_PATH" := "/tmp/app/library:/usr/local/lib"]>
                                (environ host_process))))).
  vm_compute; reflexivity.
Defined.

Lemma filter_exec_none evs :
  Forall (λ e, is_exec_event e = false) evs →
  filter (λ e, is_exec_event e = true) evs = [].
Proof.
  induction 1 as [|e evs He _ IH]; [reflexivity|].
  rewrite filter_cons_False by congruence. exact IH.
Qed.

Lemma quiet_filter_exec evs :
  Forall quiet evs → filter (λ e, is_exec_event e = true) evs = [].
Proof.
  intros H. apply filter_exec_none. eapply Forall_impl; [exact H|]. now intros e [? _].
Qed.

(** X11: launch_application calls execv exactly when the validation passed
    and configure_library_path returned success, and then it calls it once;
    in every other run there is no execv at all. *)
Theorem handoff_attempted_once k p st :
  let evs := (launch_application k p st).1 in
  let attempted :=
    bundle_is_valid k p = true
    ∧ ∃ evs_c st_c, configure_library_path k p st = (evs_c, Returns EXIT_SUCCESS st_c) in
  (attempted →
     filter (λ e, is_exec_event e = true) evs
     = [EvExecv (full_path_of p EXEC_PATH) [full_path_of p EXEC_PATH]])
  ∧ (¬ attempted → filter (λ e, is_exec_event e = true) evs = []).
Proof.
  cbv zeta.
  destruct (launch_application_cases k p st)
    as [(Hv & evs' & st0 & _ & Hl & _ & Hq)
       |[(Hv & evs_c & st_c & Hc & Hq & Hl)|(Hv & evs_c & st_c & Hc & Hq & Hl)]];
    rewrite Hl; cbn [fst].
  - split.
    + intros [Hv' _]. congruence.
    + intros _. now apply quiet_filter_exec.
  - split.
    + intros (_ & evs1 & st1 & Hc'). rewrite Hc in Hc'. discriminate Hc'.
    + intros _. rewrite filter_app, (filter_exec_none _ Hq).
      now rewrite (quiet_filter_exec _ (validated_events_quiet p)).
  - split.
    + intros _. rewrite !filter_app, (filter_exec_none _ Hq).
      rewrite (quiet_filter_exec _ (validated_events_quiet p)).
      rewrite (quiet_filter_exec _ (inspect_events_quiet k p)).
      unfold handoff. cbv zeta.
      now destruct (k_execv k (full_path_of p EXEC_PATH) [full_path_of p EXEC_PATH]).
    + intros Hn. exfalso. apply Hn. split; [exact Hv|]. eauto.
Qed.

(** X12: a launch that fails before the handoff leaves the environment as
    it was; after a failed execv the environment is the one
    configure_library_path has left.  In both cases every variable other
    than LD_LIBRARY_PATH keeps its value. *)
Theorem launch_application_failure_environment k p st evs r st' :
  launch_application k p st = (evs, Returns r st') →
  (r ≠ EXIT_EXEC_ERROR → environ st' = environ st)
  ∧ (r = EXIT_EXEC_ERROR →
       ∃ evs_c st_c,
         configure_library_path k p st = (evs_c, Returns EXIT_SUCCESS st_c)
         ∧ environ st' = environ st_c)
  ∧ (∀ name, name ≠ "LD_LIBRARY_PATH" → environ st' !! name = environ st !! name).
Proof.
  intros Hrun.
  destruct (configure_library_path_effect k p st) as (evs0 & r0 & st0 & Hc0 & Heff).
  destruct (launch_application_cases k p st)
    as [(Hv & evs' & st1 & _ & Hl & Henv & _)
       |[(_ & evs_c & st_c & Hc & _ & Hl)|(_ & evs_c & st_c & Hc & _ & Hl)]];
    rewrite Hl in Hrun; apply pair_equal_spec in Hrun as [_ Ho].
  - injection Ho as <- <-. rewrite Henv.
    split; [reflexivity|]. split; [discriminate|]. reflexivity.
  - injection Ho as <- <-. rewrite Hc in Hc0. injection Hc0 as <- <- <-.
    destruct Heff as [(Hr & _)|[(Hr & _)|(_ & _ & Henv)]]; try discriminate Hr.
    rewrite Henv. split; [reflexivity|]. split; [discriminate|]. reflexivity.
  - revert Ho. unfold handoff. cbv zeta.
    destruct (k_execv k (full_path_of p EXEC_PATH) [full_path_of p EXEC_PATH]);
      cbn [fst snd]; [|discriminate].
    intros [= <- <-]. rewrite Hc in Hc0. injection Hc0 as <- <- <-.
    cbn [environ set_errno]. rewrite environ_after_inspect.
    split; [congruence|]. split; [eauto|].
    destruct Heff as [(_ & _ & _ & Henv)|[(_ & _ & Henv)|(Hr & _)]];
      [| |discriminate Hr]; rewrite Henv; [|reflexivity].
    intros name Hname. now apply lookup_insert_ne.
Qed.

Lemma launch_application_failure_environment_witness :
  environ (set_errno ENOMEM host_process) = environ host_process.
Proof.
  apply (launch_application_failure_environment app_kernel_no_setenv "/tmp/app" host_process
           (launch_application app_kernel_no_setenv "/tmp/app" host_process).1
           EXIT_SYSTEM_ERROR (set_errno ENOMEM host_process)).
  - vm_compute; reflexivity.
  - discriminate.
Defined.

(** X13: the image that replaces the launcher is the file whose path was
    stored in exec_path, with that path as its only argument; its
    environment is the one the launcher started with, except that
    LD_LIBRARY_PATH holds the combined value when the library directory was
    found. *)
Theorem launched_image_environment k p st evs img :
  launch_application k p st = (evs, Replaced img) →
  let lib := full_path_of p LIB_PATH in
  img_path img = full_path_of p EXEC_PATH
  ∧ img_argv img = [full_path_of p EXEC_PATH]
  ∧ img_environ img =
      (if is_directory k lib
       then <["LD_LIBRARY_PATH" := combined_ld_path lib (environ st !! "LD_LIBRARY_PATH")]>
              (environ st)
       else environ st)
  ∧ (∀ name, name ≠ "LD_LIBRARY_PATH" → img_environ img !! name = environ st !! name).
Proof.
  intros Hrun lib.
  destruct (configure_library_path_effect k p st) as (evs0 & r0 & st0 & Hc0 & Heff).
  fold lib in Heff.
  destruct (launch_application_cases k p st)
    as [(Hv & evs' & st1 & _ & Hl & _)
       |[(_ & evs_c & st_c & Hc & _ & Hl)|(_ & evs_c & st_c & Hc & _ & Hl)]];
    rewrite Hl in Hrun; apply pair_equal_spec in Hrun as [_ Ho]; try discriminate Ho.
  revert Ho. unfold handoff. cbv zeta.
  destruct (k_execv k (full_path_of p EXEC_PATH) [full_path_of p EXEC_PATH]);
    cbn [fst snd]; [discriminate|].
  intros [= <-]. cbn [img_path img_argv img_environ].
  rewrite environ_after_inspect. rewrite Hc in Hc0. injection Hc0 as <- <- <-.
  split; [reflexivity|]. split; [reflexivity|].
  destruct Heff as [(_ & Hd & _ & Henv)|[(_ & Hd & Henv)|(Hr & _)]];
    [| |discriminate Hr]; rewrite Hd, Henv.
  - split; [reflexivity|]. intros name Hname. now apply lookup_insert_ne.
  - split; reflexivity.
Qed.

Lemma launched_image_environment_witness :
  "/tmp/app/exec/base" = full_path_of "/tmp/app" EXEC_PATH
  ∧ ["/tmp/app/exec/base"] = [full_path_of "/tmp/app" EXEC_PATH]
  ∧ <["LD_LIBRARY_PATH" := "/tmp/app/library:/usr/local/lib"]> (environ host_process) =
      (if is_directory app_kernel (full_path_of "/tmp/app" LIB_PATH)
       then <["LD_LIBRARY_PATH" :=
                combined_ld_path (full_path_of "/tmp/app" LIB_PATH)
                  (environ host_process !! "LD_LIBRARY_PATH")]> (environ host_process)
       else environ host_process)
  ∧ (∀ name, name ≠ "LD_LIBRARY_PATH" →
       (<["LD_LIBRARY_PATH" := "/tmp/app/library:/usr/local/lib"]> (environ host_process))
         !! name = environ host_process !! name).
Proof.
  refine (launched_image_environment app_kernel "/tmp/app" host_process
            (launch_application app_kernel "/tmp/app" host_process).1
            {| img_path := "/tmp/app/exec/base"; img_argv := ["/tmp/app/exec/base"];
               img_environ :=
                 <["LD_LIBRARY_PATH" := "/tmp/app/library:/usr/local/lib"]>
                   (environ host_process) |} _).
  vm_compute; reflexivity.
Defined.

(** ** main *)

Lemma launch_application_codes k p st evs r st' :
  launch_application k p st = (evs, Returns r st') →
  (r = EXIT_BUNDLE_ERROR ∨ r = EXIT_EXEC_ERROR ∨ r = EXIT_SYSTEM_ERROR)
  ∧ evs ≠ [].
Proof.
  intros Hrun.
  destruct (launch_application_cases k p st)
    as [(Hv & evs' & st0 & Hval & Hl & _)
       |[(_ & evs_c & st_c & _ & _ & Hl)|(_ & evs_c & st_c & _ & _ & Hl)]];
    rewrite Hl in Hrun; apply pair_equal_spec in Hrun as [<- Ho].
  - injection Ho as <- <-. split; [now left|].
    destruct (validate_bundle_diagnostic _ _ st Hv) as (evs0 & st1 & Hval' & Hlast).
    rewrite Hval in Hval'. apply pair_equal_spec in Hval' as [-> _].
    intros ->. discriminate Hlast.
  - injection Ho as <- <-. split; [now right; right | discriminate].
  - split; [|discriminate]. revert Ho. unfold handoff. cbv zeta.
    destruct (k_execv k (full_path_of p EXEC_PATH) [full_path_of p EXEC_PATH]);
      cbn [fst snd]; [|discriminate].
    intros [= <- <-]. now right; left.
Qed.

Lemma argv_two (argv : list string) :
  length argv = 2%nat → ∃ prog p, argv = [prog; p].
Proof.
  destruct argv as [|prog [|p [|x rest]]]; try discriminate. eauto.
Qed.

(** X14: main never returns 0.  When it returns, the exit code is 1, 2, 3
    or 4 and an error line has been logged; the code is EXIT_INVALID_ARGS
    (1) exactly when the number of arguments is not two or the bundle path
    has PATH_MAX bytes or more. *)
Theorem main_returns_error k argv st evs r st' :
  main k argv st = (evs, Returns r st') →
  (r = EXIT_INVALID_ARGS ∨ r = EXIT_BUNDLE_ERROR ∨ r = EXIT_EXEC_ERROR
   ∨ r = EXIT_SYSTEM_ERROR)
  ∧ (∃ msg, EvLog LOG_ERROR msg ∈ evs)
  ∧ (r = EXIT_INVALID_ARGS ↔
       length argv ≠ 2%nat ∨ PATH_MAX ≤ strlen (default "" (argv !! 1%nat))).
Proof.
  intros Hrun.
  destruct (decide (length argv = 2%nat)) as [Hlen|Hlen].
  - destruct (argv_two _ Hlen) as (prog & p & ->).
    change (default "" ([prog; p] !! 1%nat)) with p.
    destruct (Z.le_gt_cases PATH_MAX (strlen p)) as [Hlong|Hshort].
    + rewrite main_too_long_run in Hrun by exact Hlong.
      apply pair_equal_spec in Hrun as [<- Ho]. injection Ho as <- <-.
      split; [now left|]. split; [eexists; apply list_elem_of_here|].
      split; auto.
    + rewrite main_launch_run in Hrun by exact Hshort.
      destruct (launch_application k p st) as [evs_l [r_l st_l|img]] eqn:Hl;
        [|discriminate].
      apply pair_equal_spec in Hrun as [<- Ho]. injection Ho as <- <-.
      destruct (launch_application_codes _ _ _ _ _ _ Hl) as [Hr _].
      split; [tauto|]. split.
      * eexists. rewrite !elem_of_app. right. right. apply list_elem_of_here.
      * split.
        -- intros ->. destruct Hr as [Hr|[Hr|Hr]]; discriminate Hr.
        -- intros [Hn|Hlong]; [congruence | lia].
  - rewrite (main_wrong_count_run _ _ _ Hlen) in Hrun.
    apply pair_equal_spec in Hrun as [<- Ho]. injection Ho as <- <-.
    split; [now left|]. split; [eexists; apply list_elem_of_here|].
    split; auto.
Qed.

Lemma main_returns_error_witness :
  (EXIT_BUNDLE_ERROR = EXIT_INVALID_ARGS ∨ EXIT_BUNDLE_ERROR = EXIT_BUNDLE_ERROR
   ∨ EXIT_BUNDLE_ERROR = EXIT_EXEC_ERROR ∨ EXIT_BUNDLE_ERROR = EXIT_SYSTEM_ERROR)
  ∧ (∃ msg, EvLog LOG_ERROR msg ∈ (main bare_kernel ["launcher"; "/tmp/app"] host_process).1)
  ∧ (EXIT_BUNDLE_ERROR = EXIT_INVALID_ARGS ↔
       length ["launcher"; "/tmp/app"] ≠ 2%nat
       ∨ PATH_MAX ≤ strlen (default "" (["launcher"; "/tmp/app"] !! 1%nat))).
Proof.
  apply (main_returns_error bare_kernel ["launcher"; "/tmp/app"] host_process _ _
           (set_errno ENOENT host_process)).
  vm_compute; reflexivity.
Defined.







(** X16: with a wrong number of arguments the first thing main does is to
    log which way the count is wrong (too many, or the bundle path
    missing), and the usage text names the program as argv[0] has it (as
    "(null)" when the argument vector is empty). *)
Theorem main_argument_count_diagnostic k argv st :
  length argv ≠ 2%nat →
  let evs := (main k argv st).1 in
  head evs = Some (EvLog LOG_ERROR
                     (if decide (2 < length argv)%nat then "Too many arguments provided"
                      else "Missing required bundle path argument"))
  ∧ EvPrintf ("Usage: " +:+ default "(null)" (argv !! 0%nat) +:+ " <bundle_path>"
              +:+ newline +:+ newline) ∈ evs
  ∧ length evs = 19%nat.
Proof.
  intros Hlen. cbv zeta. rewrite (main_wrong_count_run _ _ _ Hlen). cbn [fst].
  split; [|split].
  - cbn [head]. do 2 f_equal.
    destruct (Z.gtb_spec (Z.of_nat (length argv)) 2), (decide (2 < length argv)%nat);
      try reflexivity; lia.
  - apply elem_of_cons. right. apply list_elem_of_fmap_2.
    unfold usage_text, show_string. rewrite !elem_of_cons. auto.
  - reflexivity.
Qed.

Lemma main_argument_count_diagnostic_witness :
  let evs := (main bare_kernel ["launcher"; "/tmp/app"; "--verbose"] host_process).1 in
  head evs = Some (EvLog LOG_ERROR "Too many arguments provided")
  ∧ EvPrintf ("Usage: launcher <bundle_path>" +:+ newline +:+ newline) ∈ evs
  ∧ length evs = 19%nat.
Proof.
  refine (main_argument_count_diagnostic bare_kernel
            ["launcher"; "/tmp/app"; "--verbose"] host_process _).
  simpl. lia.
Defined.



(** X18: the two ways configure_library_path fails are told apart by the
    error line.  When the combined value is too long, the line says so and
    setenv is not called; when setenv fails, the line carries the text of
    the error number setenv has set.  In both cases the environment is as
    it was. *)
Theorem configure_library_path_error_diagnostic k p st evs st' :
  configure_library_path k p st = (evs, Returns EXIT_SYSTEM_ERROR st') →
  let lib := full_path_of p LIB_PATH in
  let new := combined_ld_path lib (environ st !! "LD_LIBRARY_PATH") in
  environ st' = environ st
  ∧ ((strlen new + 1 > MAX_ENV_LENGTH
      ∧ last evs = Some (EvLog LOG_ERROR "LD_LIBRARY_PATH would exceed maximum length")
      ∧ Forall (λ e, match e with EvSetenv _ _ _ => False | _ => True end) evs)
     ∨ (strlen new + 1 ≤ MAX_ENV_LENGTH
        ∧ ∃ e, k_setenv k "LD_LIBRARY_PATH" new = Some e
            ∧ last evs = Some (EvLog LOG_ERROR
                                 ("Failed to set LD_LIBRARY_PATH: " +:+ k_strerror k e))
            ∧ EvSetenv "LD_LIBRARY_PATH" new 1 ∈ evs)).
Proof.
  rewrite configure_library_path_run. cbv zeta. intros Hrun.
  destruct (is_directory k (full_path_of p LIB_PATH)); [|discriminate].
  unfold ld_path_overflows in Hrun.
  destruct (Z.gtb_spec (strlen (combined_ld_path (full_path_of p LIB_PATH)
                                  (environ st !! "LD_LIBRARY_PATH")) + 1)
              MAX_ENV_LENGTH) as [Hover|Hfit].
  - apply pair_equal_spec in Hrun as [<- Ho]. injection Ho as <-.
    split; [reflexivity|]. left.
    split; [lia|]. split; [reflexivity | repeat constructor].
  - destruct (k_setenv k "LD_LIBRARY_PATH" _) as [e|]; [|discriminate].
    apply pair_equal_spec in Hrun as [<- Ho]. injection Ho as <-.
    split; [reflexivity|]. right. split; [lia|].
    exists e. split; [reflexivity|]. split; [reflexivity|].
    rewrite !elem_of_cons. auto.
Qed.

Lemma configure_library_path_error_diagnostic_witness :
  let evs := (configure_library_path app_kernel_no_setenv "/tmp/app" host_process).1 in
  let new := "/tmp/app/library:/usr/local/lib" in
  environ (set_errno ENOMEM host_process) = environ host_process
  ∧ ((strlen new + 1 > MAX_ENV_LENGTH
      ∧ last evs = Some (EvLog LOG_ERROR "LD_LIBRARY_PATH would exceed maximum length")
      ∧ Forall (λ e, match e with EvSetenv _ _ _ => False | _ => True end) evs)
     ∨ (strlen new + 1 ≤ MAX_ENV_LENGTH
        ∧ ∃ e, k_setenv app_kernel_no_setenv "LD_LIBRARY_PATH" new = Some e
            ∧ last evs = Some (EvLog LOG_ERROR
                                 ("Failed to set LD_LIBRARY_PATH: "
                                  +:+ k_strerror app_kernel_no_setenv e))
            ∧ EvSetenv "LD_LIBRARY_PATH" new 1 ∈ evs)).
Proof.
  refine (configure_library_path_error_diagnostic app_kernel_no_setenv "/tmp/app"
            host_process _ (set_errno ENOMEM host_process) _).
  vm_compute; reflexivity.
Defined.

(** ** log_message *)

Lemma append_cancel_r s1 s2 t : s1 +:+ t = s2 +:+ t → s1 = s2.
Proof.
  intros H.
  assert (strlen s1 = strlen s2) as Hlen.
  { apply (f_equal strlen) in H. rewrite !strlen_app in H. lia. }
  revert s2 H Hlen. induction s1 as [|c s1 IH]; intros [|c2 s2] H Hlen;
    try reflexivity; try (unfold strlen in Hlen; simpl String.length in Hlen; lia).
  change (String c (s1 +:+ t) = String c2 (s2 +:+ t)) in H.
  injection H as -> H. f_equal. apply IH; [exact H|].
  unfold strlen in *. simpl String.length in Hlen. lia.
Qed.

(** X19: a log line tells its level and its message: for one time stamp,
    two calls of log_message write the same line only if they have the same
    level and the same message.  A line goes to stderr exactly when its
    level is LOG_ERROR. *)
Theorem log_line_injective timestamp level1 message1 level2 message2 :
  log_line timestamp level1 message1 = log_line timestamp level2 message2 →
  level1 = level2 ∧ message1 = message2
  ∧ (log_stream level1 = stderr ↔ level1 = LOG_ERROR).
Proof.
  unfold log_line. intros H.
  apply (inj (String.append "[")) in H. apply (inj (String.append timestamp)) in H.
  apply (inj (String.append "] ")) in H.
  assert (level1 = level2) as ->.
  { destruct level1, level2; try reflexivity; vm_compute in H; discriminate H. }
  split; [reflexivity|]. split.
  - apply (inj (String.append (level_icon level2))) in H.
    apply (inj (String.append " ")) in H.
    apply (inj (String.append (level_str level2))) in H.
    apply (inj (String.append ": ")) in H.
    now apply append_cancel_r in H.
  - destruct level2; split; try discriminate; reflexivity.
Qed.

Lemma log_line_injective_witness :
  LOG_ERROR = LOG_ERROR ∧ "Bundle directory not found: /tmp/app" = "Bundle directory not found: /tmp/app"
  ∧ (log_stream LOG_ERROR = stderr ↔ LOG_ERROR = LOG_ERROR).
Proof.
  apply (log_line_injective "2025-01-01 12:00:00" LOG_ERROR
           "Bundle directory not found: /tmp/app" LOG_ERROR
           "Bundle directory not found: /tmp/app").
  reflexivity.
Defined.
